(** * gitops-flask-series: the Flask responder and its cluster test harness

    A shallow embedding of [09/app.py] (the two-route HTTP responder) and of
    the pytest modules that exercise a Kubernetes cluster and a deployed
    endpoint ([03], [04], [06], [09], [gitops-flask-kubernetes]).

    Text model.  Python [str] and [bytes] values are both represented by
    Rocq [string]s (sequences of 8-bit characters).  The model is exact on
    ASCII text, where [str.encode] and [bytes.decode] are the identity and
    the class [\w] is [A-Za-z0-9_].  Text with a byte above 0x7f lies
    outside it: Python decodes such bytes as UTF-8 and lets [\w] accept
    non-ASCII alphanumerics, neither of which is modelled.  A theorem
    about the code whose conclusion depends on [decode] or on what [\w]
    rejects therefore assumes the text in question to be ASCII. *)

From Stdlib Require Import Ascii String List Bool ZArith Lia.
From stdpp Require Import base gmap strings list.

Local Open Scope string_scope.
Local Open Scope list_scope.

(** ** Text helpers: Python's [in] on bytes/str *)

Module Text.

(** [prefixb p s]: [s.startswith(p)]. *)
Fixpoint prefixb (p s : string) : bool :=
  match p, s with
  | EmptyString, _ => true
  | String a p', String b s' => if Ascii.eqb a b then prefixb p' s' else false
  | String _ _, EmptyString => false
  end.

(** [contains needle hay]: the Python expression [needle in hay]. *)
Fixpoint contains (needle hay : string) : bool :=
  prefixb needle hay ||
  match hay with
  | EmptyString => false
  | String _ hay' => contains needle hay'
  end.

End Text.

(** ** The HTTP responder, [09/app.py] *)

Module App.

(** The part of the operating-system process that [os.getenv] touches.
    [getenv_calls] is a ghost trace of the keys looked up so far. *)
Record os_state := {
  environ : gmap string string;
  getenv_calls : list string
}.

(** [os.getenv(key, default)]. *)
Definition os_getenv (key dflt : string) (os : os_state)
  : string * os_state :=
  (default dflt (environ os !! key),
   {| environ := environ os;
      getenv_calls := getenv_calls os ++ [key] |}).

(** The imported module: the OS state and the two module-level globals. *)
Record process := {
  os : os_state;
  name : string;
  cluster_name : string
}.

(** Module body, lines 6-7, executed once at import. *)
Definition import_app (os0 : os_state) : process :=
  let '(name, os1) := os_getenv "NAME" "service1" os0 in
  let '(cluster_name, os2) := os_getenv "CLUSTER" "cluster1" os1 in
  {| os := os2; name := name; cluster_name := cluster_name |}.

Definition boot (env : gmap string string) : process :=
  import_app {| environ := env; getenv_calls := [] |}.

(** The two view functions; each returns its body and the process state
    it leaves behind. *)
Definition hello (p : process) : string * process :=
  ("hello", p).

Definition cluster (p : process) : string * process :=
  ("This is " +:+ name p +:+ " in cluster " +:+ cluster_name p, p).

Record response := {
  status : Z;
  body : string
}.

(** werkzeug's page for an unmatched URL. *)
Definition not_found : response :=
  {| status := 404;
     body := "<!doctype html>
<html lang=en>
<title>404 Not Found</title>
<h1>Not Found</h1>
<p>The requested URL was not found on the server. If you entered the URL manually please check your spelling and try again.</p>
" |}.

(** A GET request routed through [app.route]: a view's [str] return value
    becomes a 200 response with that body.  [path] is the path that the
    URL map is matched against; the two rules are matched literally.
    What werkzeug does to a request target before and besides that
    (percent-decoding, the query string, redirects for doubled slashes)
    is not modelled, so only the answers for [/] and [/cluster]
    themselves are meant to be relied on. *)
Definition get (path : string) (p : process) : response * process :=
  if String.eqb path "/" then
    let '(b, p') := hello p in ({| status := 200; body := b |}, p')
  else if String.eqb path "/cluster" then
    let '(b, p') := cluster p in ({| status := 200; body := b |}, p')
  else (not_found, p).

(** What can happen to the process after start-up: requests, and writes
    to the process environment. *)
Inductive event :=
| Get (path : string)
| Setenv (key value : string)
| Unsetenv (key : string).

Definition set_environ (f : gmap string string -> gmap string string)
    (p : process) : process :=
  {| os := {| environ := f (environ (os p));
              getenv_calls := getenv_calls (os p) |};
     name := name p;
     cluster_name := cluster_name p |}.

Definition step (e : event) (p : process) : list response * process :=
  match e with
  | Get path => let '(r, p') := get path p in ([r], p')
  | Setenv k v => ([], set_environ (insert k v) p)
  | Unsetenv k => ([], set_environ (delete k) p)
  end.

Fixpoint run (evs : list event) (p : process) : list response * process :=
  match evs with
  | [] => ([], p)
  | e :: evs' =>
      let '(rs, p') := step e p in
      let '(rs', p'') := run evs' p' in
      (rs ++ rs', p'')
  end.

(** The response to a GET issued after the history [evs]. *)
Definition get_after (env : gmap string string) (evs : list event)
    (path : string) : response :=
  fst (get path (snd (run evs (boot env)))).

End App.

(** ** Regular expressions: the fragment of Python's [re] used by the tests *)

Module Re.

(** [\w] on ASCII characters: letters, digits and the underscore.  On a
    [str] pattern Python's [\w] accepts non-ASCII alphanumerics as well;
    for characters above 0x7f this function is not the class. *)
Definition is_word (c : ascii) : bool :=
  let n := N_of_ascii c in
  ((48 <=? n) && (n <=? 57) || (65 <=? n) && (n <=? 90) ||
   (97 <=? n) && (n <=? 122) || (n =? 95))%N.

Inductive regex :=
| Lit (s : string)             (* literal text *)
| Plus (cls : ascii -> bool)   (* one or more characters of a class, greedy *)
| Cat (r1 r2 : regex)
| Group (r : regex).           (* capturing parentheses *)

(** Backtracking matcher in continuation-passing style: [k] decides
    whether the rest of the pattern accepts the rest of the subject. *)
Fixpoint lit_match (l s : string) (k : string -> bool) : bool :=
  match l, s with
  | EmptyString, _ => k s
  | String a l', String b s' =>
      if Ascii.eqb a b then lit_match l' s' k else false
  | String _ _, EmptyString => false
  end.

Fixpoint plus_match (cls : ascii -> bool) (s : string)
    (k : string -> bool) : bool :=
  match s with
  | EmptyString => false
  | String c s' => if cls c then plus_match cls s' k || k s' else false
  end.

Fixpoint rmatch (r : regex) (s : string) (k : string -> bool) : bool :=
  match r with
  | Lit l => lit_match l s k
  | Plus cls => plus_match cls s k
  | Cat r1 r2 => rmatch r1 s (fun s' => rmatch r2 s' k)
  | Group r' => rmatch r' s k
  end.

(** Truthiness of [re.match(r, s)]: some prefix of [s] matches [r]. *)
Definition re_match (r : regex) (s : string) : bool :=
  rmatch r s (fun _ => true).

(** The words of a pattern. *)
Inductive matches : regex -> string -> Prop :=
| MLit s : matches (Lit s) s
| MPlus1 cls c : cls c = true -> matches (Plus cls) (String c "")
| MPlusS cls c s :
    cls c = true -> matches (Plus cls) s -> matches (Plus cls) (String c s)
| MCat r1 r2 s1 s2 :
    matches r1 s1 -> matches r2 s2 -> matches (Cat r1 r2) (s1 +:+ s2)
| MGroup r s : matches r s -> matches (Group r) s.

(** [r'This is (\w+) in cluster (\w+)'], [09/tests/test_end_to_end.py]. *)
Definition cluster_pattern : regex :=
  Cat (Lit "This is ")
    (Cat (Group (Plus is_word))
       (Cat (Lit " in cluster ") (Group (Plus is_word)))).

Fixpoint all_chars (cls : ascii -> bool) (s : string) : bool :=
  match s with
  | EmptyString => true
  | String c s' => cls c && all_chars cls s'
  end.

Definition starts_with (cls : ascii -> bool) (s : string) : bool :=
  match s with
  | EmptyString => false
  | String c _ => cls c
  end.

End Re.

(** ** Python values, faults, and calls into the outside world *)

Module Py.

Inductive fault :=
| AssertionError
| AttributeError
| UnicodeDecodeError
| OSError                      (* open(): missing or unreadable file *)
| YAMLError                    (* yaml.safe_load *)
| ConfigException              (* kubernetes.config *)
| ApiException (status : Z)    (* kubernetes.client.rest *)
| ConnectionError.             (* requests *)

Inductive result (A : Type) :=
| Ok (a : A)
| Raise (f : fault).
Arguments Ok {A} a.
Arguments Raise {A} f.

(** A parsed YAML document. *)
#[local] Unset Elimination Schemes.
Inductive yaml :=
| YNull
| YStr (s : string)
| YMap (items : list (string * yaml))
| YSeq (items : list yaml).
#[local] Set Elimination Schemes.

Record V1ObjectMeta := {
  md_name : option string;
  md_namespace : option string
}.

(** The Python values that cross the boundary with the libraries. *)
Inductive pyval :=
| PyNone
| PyYaml (doc : yaml)                        (* yaml.safe_load(f) *)
| PyObject (metadata : option V1ObjectMeta)  (* V1Namespace, V1Service, ... *)
| PyResponse (status_code : Z) (content : string).  (* requests.Response *)

(** Every call the test modules make into a library that talks to the
    outside world (file system, cluster API, network). *)
Inductive call :=
| LoadKubeConfig (context : option string)
| LoadYaml (path : string)     (* open(path) followed by yaml.safe_load *)
| CreateNamespace (body : pyval)
| ReadNamespace (name : string)
| DeleteNamespace (name : string)
| CreateNamespacedDeployment (body : pyval) (namespace : string)
| ReadNamespacedDeployment (name namespace : string)
| CreateNamespacedService (body : pyval) (namespace : string)
| ReadNamespacedService (name namespace : string)
| CreateNamespacedIngress (body : pyval) (namespace : string)
| ReadNamespacedIngress (name namespace : string)
| RequestsGet (url : string).

Definition is_create (c : call) : bool :=
  match c with
  | CreateNamespace _ | CreateNamespacedDeployment _ _
  | CreateNamespacedService _ _ | CreateNamespacedIngress _ _ => true
  | _ => false
  end.

Definition is_read (c : call) : bool :=
  match c with
  | ReadNamespace _ | ReadNamespacedDeployment _ _
  | ReadNamespacedService _ _ | ReadNamespacedIngress _ _ => true
  | _ => false
  end.

Definition is_delete (c : call) : bool :=
  match c with
  | DeleteNamespace _ => true
  | _ => false
  end.

Definition is_get (c : call) : bool :=
  match c with
  | RequestsGet _ => true
  | _ => false
  end.

(** One line of the call trace: the call and what it returned or raised. *)
Record entry := {
  e_call : call;
  e_result : result pyval
}.

Definition faulted (e : entry) : bool :=
  match e_result e with
  | Raise _ => true
  | Ok _ => false
  end.

(** The outside world: any state space with any reaction to the calls. *)
Class World (W : Type) := perform : call -> W -> result pyval * W.

Record state (W : Type) := {
  world : W;
  trace : list entry
}.
Arguments world {W} s.
Arguments trace {W} s.

(** Test code: a computation over the world that may raise. *)
Definition M (W A : Type) : Type := state W -> result A * state W.

Definition ret {W A} (a : A) : M W A := fun s => (Ok a, s).

Definition raise {W A} (f : fault) : M W A := fun s => (Raise f, s).

Definition bind {W A B} (m : M W A) (k : A -> M W B) : M W B :=
  fun s =>
    match m s with
    | (Ok a, s') => k a s'
    | (Raise f, s') => (Raise f, s')
    end.

Definition do_call {W} `{World W} (c : call) : M W pyval :=
  fun s =>
    let '(r, w') := perform c (world s) in
    (r, {| world := w';
           trace := trace s ++ [{| e_call := c; e_result := r |}] |}).

(** The [assert] statement. *)
Definition assert {W} (b : bool) : M W unit :=
  if b then ret tt else raise AssertionError.

(** [v.metadata] followed by an attribute of the metadata object. *)
Definition getattr_metadata {W} (v : pyval) : M W V1ObjectMeta :=
  match v with
  | PyObject (Some md) => ret md
  | _ => raise AttributeError
  end.

(** [v.content]. *)
Definition getattr_content {W} (v : pyval) : M W string :=
  match v with
  | PyResponse _ content => ret content
  | _ => raise AttributeError
  end.

Definition is_ascii (c : ascii) : bool := (N_of_ascii c <? 128)%N.

(** [b.decode()] on ASCII bytes, where it is the identity.  Python
    decodes UTF-8, so bytes above 0x7f may well decode; the model does
    not represent the resulting text and what it answers for such bytes
    is not meant to be relied on. *)
Definition decode {W} (b : string) : M W string :=
  if Re.all_chars is_ascii b then ret b else raise UnicodeDecodeError.

(** [s == v] for a [str] literal [s] and a value that is a [str] or [None]. *)
Definition eq_str (s : string) (v : option string) : bool :=
  match v with
  | Some s' => String.eqb s s'
  | None => false
  end.

(** [x in (s1, ..., sn)] for a tuple of [str] literals. *)
Definition in_tuple (x : option string) (t : list string) : bool :=
  existsb (fun s => eq_str s x) t.

(** [str.format] / f-string rendering of a value that is a [str] or [None]. *)
Definition format_value (v : option string) : string :=
  match v with
  | Some s => s
  | None => "None"
  end.

End Py.

Notation "x <- c1 ;; c2" := (Py.bind c1 (fun x => c2))
  (at level 100, c1 at next level, right associativity).

(** ** The pytest runner *)

Module Pytest.
Import Py.

Inductive outcome :=
| Passed
| Failed (f : fault)
| Skipped (reason : string).

Record report := {
  nodeid : string;
  outcome_of : outcome;
  calls : list entry
}.

Definition executed (r : report) : bool :=
  match outcome_of r with
  | Skipped _ => false
  | _ => true
  end.

(** Run one test function (or a class-level hook) and capture whatever
    it raises; the world it leaves behind is handed to the next one. *)
Definition run_test {W} (id : string) (t : M W unit) (w : W)
  : report * W :=
  let '(r, s) := t {| world := w; trace := [] |} in
  ({| nodeid := id;
      outcome_of := match r with Ok _ => Passed | Raise f => Failed f end;
      calls := trace s |},
   world s).

Fixpoint run_tests {W} (ts : list (string * M W unit)) (w : W)
  : list report * W :=
  match ts with
  | [] => ([], w)
  | (id, t) :: ts' =>
      let '(r, w1) := run_test id t w in
      let '(rs, w2) := run_tests ts' w1 in
      (r :: rs, w2)
  end.

(** A test class as pytest sees it: the [skipif] mark, the
    [setup_class] hook, the test methods in definition order, and the
    [teardown_class] hook when the class has one. *)
Record test_class (W : Type) := {
  c_name : string;
  c_skipif : option (bool * string);
  c_setup : M W unit;
  c_tests : list (string * M W unit);
  c_teardown : option (M W unit)
}.
Arguments c_name {W} t.
Arguments c_skipif {W} t.
Arguments c_setup {W} t.
Arguments c_tests {W} t.
Arguments c_teardown {W} t.

Record class_result := {
  reports : list report;
  teardown : option report
}.

Definition mark_all {W} (o : outcome) (ts : list (string * M W unit))
  : list report :=
  map (fun t => {| nodeid := fst t; outcome_of := o; calls := [] |}) ts.

Definition run_class {W} (c : test_class W) (w : W) : class_result * W :=
  match c_skipif c with
  | Some (true, reason) =>
      ({| reports := mark_all (Skipped reason) (c_tests c);
          teardown := None |}, w)
  | _ =>
      match c_tests c with
      | [] => ({| reports := []; teardown := None |}, w)
      | _ =>
          let '(s, w0) := run_test "setup_class" (c_setup c) w in
          match outcome_of s with
          | Failed f =>
              ({| reports := mark_all (Failed f) (c_tests c);
                  teardown := None |}, w0)
          | _ =>
              let '(rs, w1) := run_tests (c_tests c) w0 in
              match c_teardown c with
              | None => ({| reports := rs; teardown := None |}, w1)
              | Some td =>
                  let '(r, w2) := run_test "teardown_class" td w1 in
                  ({| reports := rs; teardown := Some r |}, w2)
              end
          end
      end
  end.

Fixpoint run_classes {W} (cs : list (test_class W)) (w : W)
  : list class_result * W :=
  match cs with
  | [] => ([], w)
  | c :: cs' =>
      let '(r, w1) := run_class c w in
      let '(rs, w2) := run_classes cs' w1 in
      (r :: rs, w2)
  end.

(** A test module: its module-level statements, run at collection, and
    its classes. *)
Record test_module (W : Type) := {
  m_import : M W unit;
  m_classes : list (test_class W)
}.
Arguments m_import {W} t.
Arguments m_classes {W} t.

Inductive session :=
| CollectionError (f : fault) (import_calls : list entry)
| Ran (import_calls : list entry) (results : list class_result).

Definition run_module {W} (m : test_module W) (w : W) : session * W :=
  let '(r, s) := m_import m {| world := w; trace := [] |} in
  match r with
  | Raise f => (CollectionError f (trace s), world s)
  | Ok _ =>
      let '(rs, w') := run_classes (m_classes m) (world s) in
      (Ran (trace s) rs, w')
  end.

(** Whether the module was imported, so that its tests were collected. *)
Definition collected (s : session) : bool :=
  match s with
  | Ran _ _ => true
  | CollectionError _ _ => false
  end.

Definition results (s : session) : list class_result :=
  match s with
  | Ran _ rs => rs
  | CollectionError _ _ => []
  end.

(** Every call made while the tests and hooks of a class ran, in order. *)
Definition class_calls (r : class_result) : list entry :=
  concat (map calls (reports r)) ++
  match teardown r with
  | Some t => calls t
  | None => []
  end.

(** Every call of the session, from import to the last teardown. *)
Definition session_calls (s : session) : list entry :=
  match s with
  | CollectionError _ ic => ic
  | Ran ic rs => ic ++ concat (map class_calls rs)
  end.

Definition count_calls (p : call -> bool) (es : list entry) : nat :=
  length (List.filter (fun e => p (e_call e)) es).

End Pytest.

(** ** [conftest.py]: command-line options and fixtures *)

Module Conftest04.

(** [config.option] after [pytest_addoption]: [--endpoint], stored as
    given, [None] when absent. *)
Record options := {
  endpoint_opt : option string
}.

(** The [endpoint] fixture. *)
Definition endpoint (config : options) : option string :=
  endpoint_opt config.

End Conftest04.

Module Conftest08.

(** [config.option] after [pytest_addoption]: [--endpoint] and
    [--context], each stored as given, [None] when absent. *)
Record options := {
  endpoint_opt : option string;
  context : option string
}.

(** The [endpoint] fixture. *)
Definition endpoint (config : options) : option string :=
  endpoint_opt config.

(** [pytest_configure]: the module global [option] is [config.option]. *)
Definition pytest_configure (config : options) : options := config.

End Conftest08.

(** ** Provisioning harness, [03/tests/test_smoke.py] *)

Module Smoke03.
Import Py Pytest.

Section Tests.
Context {W : Type} `{World W}.

(** Line 5, run when the module is imported. *)
Definition import_module : M W unit :=
  _ <- do_call (LoadKubeConfig (Some "kind-cluster1")) ;; ret tt.

(** Builds the [CoreV1Api] and [AppsV1Api] client objects; no call
    leaves the process. *)
Definition setup_class : M W unit := ret tt.

Definition test_create_namespace : M W unit :=
  namespace <- do_call (LoadYaml "namespace.yaml") ;;
  response <- do_call (CreateNamespace namespace) ;;
  result <- do_call (ReadNamespace "test-namespace") ;;
  md <- getattr_metadata result ;;
  assert (eq_str "test-namespace" (md_name md)).

Definition test_create_deployment : M W unit :=
  deployment <- do_call (LoadYaml "deployment.yaml") ;;
  response <-
    do_call (CreateNamespacedDeployment deployment "test-namespace") ;;
  result <- do_call (ReadNamespacedDeployment "flask" "test-namespace") ;;
  md <- getattr_metadata result ;;
  _ <- assert (eq_str "flask" (md_name md)) ;;
  md <- getattr_metadata result ;;
  assert (eq_str "test-namespace" (md_namespace md)).

Definition teardown_class : M W unit :=
  _ <- do_call (DeleteNamespace "test-namespace") ;; ret tt.

Definition TestSmoke : test_class W :=
  {| c_name := "TestSmoke";
     c_skipif := None;
     c_setup := setup_class;
     c_tests :=
       [("test_create_namespace", test_create_namespace);
        ("test_create_deployment", test_create_deployment)];
     c_teardown := Some teardown_class |}.

Definition test_smoke : test_module W :=
  {| m_import := import_module; m_classes := [TestSmoke] |}.

End Tests.

End Smoke03.

(** ** Provisioning harness, [04/tests/test_smoke.py] *)

Module Smoke04.
Import Py Pytest.

Section Tests.
Context {W : Type} `{World W}.

Definition import_module : M W unit :=
  _ <- do_call (LoadKubeConfig (Some "kind-cluster1")) ;; ret tt.

(** Builds the [CoreV1Api], [AppsV1Api] and [NetworkingV1beta1Api]
    client objects; no call leaves the process. *)
Definition setup_class : M W unit := ret tt.

Definition test_create_namespace : M W unit :=
  namespace <- do_call (LoadYaml "namespace.yaml") ;;
  response <- do_call (CreateNamespace namespace) ;;
  result <- do_call (ReadNamespace "test-namespace") ;;
  md <- getattr_metadata result ;;
  assert (eq_str "test-namespace" (md_name md)).

Definition test_create_deployment : M W unit :=
  deployment <- do_call (LoadYaml "deployment.yaml") ;;
  response <-
    do_call (CreateNamespacedDeployment deployment "test-namespace") ;;
  result <- do_call (ReadNamespacedDeployment "flask" "test-namespace") ;;
  md <- getattr_metadata result ;;
  _ <- assert (eq_str "flask" (md_name md)) ;;
  md <- getattr_metadata result ;;
  assert (eq_str "test-namespace" (md_namespace md)).

Definition test_create_service : M W unit :=
  service <- do_call (LoadYaml "service.yaml") ;;
  response <- do_call (CreateNamespacedService service "test-namespace") ;;
  result <- do_call (ReadNamespacedService "flask" "test-namespace") ;;
  md <- getattr_metadata result ;;
  _ <- assert (eq_str "flask" (md_name md)) ;;
  md <- getattr_metadata result ;;
  assert (eq_str "test-namespace" (md_namespace md)).

Definition test_create_ingress : M W unit :=
  ingress <- do_call (LoadYaml "ingress.yaml") ;;
  response <- do_call (CreateNamespacedIngress ingress "test-namespace") ;;
  result <- do_call (ReadNamespacedIngress "flask" "test-namespace") ;;
  md <- getattr_metadata result ;;
  _ <- assert (eq_str "flask" (md_name md)) ;;
  md <- getattr_metadata result ;;
  assert (eq_str "test-namespace" (md_namespace md)).

Definition teardown_class : M W unit :=
  _ <- do_call (DeleteNamespace "test-namespace") ;; ret tt.

Definition TestSmoke : test_class W :=
  {| c_name := "TestSmoke";
     c_skipif := None;
     c_setup := setup_class;
     c_tests :=
       [("test_create_namespace", test_create_namespace);
        ("test_create_deployment", test_create_deployment);
        ("test_create_service", test_create_service);
        ("test_create_ingress", test_create_ingress)];
     c_teardown := Some teardown_class |}.

Definition test_smoke : test_module W :=
  {| m_import := import_module; m_classes := [TestSmoke] |}.

End Tests.

End Smoke04.

(** ** Provisioning harness, [gitops-flask-kubernetes/tests/test_smoke.py] *)

Module SmokeGfk.
Import Py Pytest.

Section Tests.
Context {W : Type} `{World W}.

Definition import_module : M W unit :=
  _ <- do_call (LoadKubeConfig (Some "kind-cluster1")) ;; ret tt.

(** Builds the [CoreV1Api] client object; no call leaves the process. *)
Definition setup_class : M W unit := ret tt.

Definition test_create_namespace : M W unit :=
  namespace <- do_call (LoadYaml "namespace.yaml") ;;
  response <- do_call (CreateNamespace namespace) ;;
  result <- do_call (ReadNamespace "test-namespace") ;;
  md <- getattr_metadata result ;;
  assert (eq_str "test-namespace" (md_name md)).

(** Line 20: this [def] starts in column 0, after the class body has
    ended, so it is a function of the module and not an attribute of
    [TestSmoke]. *)
Definition teardown_class : M W unit :=
  _ <- do_call (DeleteNamespace "test-namespace") ;; ret tt.

(** The class body spans lines 9-18: [setup_class] and one test.
    pytest looks [teardown_class] up on the class, where there is none;
    a module-level function of that name is neither a test nor a hook. *)
Definition TestSmoke : test_class W :=
  {| c_name := "TestSmoke";
     c_skipif := None;
     c_setup := setup_class;
     c_tests := [("test_create_namespace", test_create_namespace)];
     c_teardown := None |}.

Definition test_smoke : test_module W :=
  {| m_import := import_module; m_classes := [TestSmoke] |}.

End Tests.

End SmokeGfk.

(** ** Verification-only harness, [06/tests/test_gitops.py] *)

Module GitOps06.
Import Py Pytest.

Section Tests.
Context {W : Type} `{World W}.

Definition import_module : M W unit :=
  _ <- do_call (LoadKubeConfig (Some "kind-cluster1")) ;; ret tt.

Definition setup_class : M W unit := ret tt.

Definition test_flask_application_namespace : M W unit :=
  namespace <- do_call (ReadNamespace "test-namespace") ;;
  md <- getattr_metadata namespace ;;
  assert (eq_str "test-namespace" (md_name md)).

Definition test_flask_application_deployment : M W unit :=
  deployment <-
    do_call (ReadNamespacedDeployment "flask" "test-namespace") ;;
  md <- getattr_metadata deployment ;;
  _ <- assert (eq_str "flask" (md_name md)) ;;
  md <- getattr_metadata deployment ;;
  assert (eq_str "test-namespace" (md_namespace md)).

Definition test_flask_application_service : M W unit :=
  service <- do_call (ReadNamespacedService "flask" "test-namespace") ;;
  md <- getattr_metadata service ;;
  _ <- assert (eq_str "flask" (md_name md)) ;;
  md <- getattr_metadata service ;;
  assert (eq_str "test-namespace" (md_namespace md)).

Definition test_flask_application_ingress : M W unit :=
  ingress <- do_call (ReadNamespacedIngress "flask" "test-namespace") ;;
  md <- getattr_metadata ingress ;;
  _ <- assert (eq_str "flask" (md_name md)) ;;
  md <- getattr_metadata ingress ;;
  assert (eq_str "test-namespace" (md_namespace md)).

Definition TestGitOps : test_class W :=
  {| c_name := "TestGitOps";
     c_skipif := None;
     c_setup := setup_class;
     c_tests :=
       [("test_flask_application_namespace",
         test_flask_application_namespace);
        ("test_flask_application_deployment",
         test_flask_application_deployment);
        ("test_flask_application_service",
         test_flask_application_service);
        ("test_flask_application_ingress",
         test_flask_application_ingress)];
     c_teardown := None |}.

Definition test_gitops : test_module W :=
  {| m_import := import_module; m_classes := [TestGitOps] |}.

End Tests.

End GitOps06.

(** ** Verification-only harness, [09/tests/test_gitops.py] *)

Module GitOps09.
Import Py Pytest.

Section Tests.
Context {W : Type} `{World W}.

(** [from conftest import option]. *)
Variable opt : Conftest08.options.

(** Line 6. *)
Definition import_module : M W unit :=
  _ <- do_call (LoadKubeConfig (Conftest08.context opt)) ;; ret tt.

Definition setup_class : M W unit := ret tt.

Definition test_flask_application_namespace : M W unit :=
  namespace <- do_call (ReadNamespace "test-namespace") ;;
  md <- getattr_metadata namespace ;;
  assert (eq_str "test-namespace" (md_name md)).

Definition test_flask_application_deployment : M W unit :=
  deployment <-
    do_call (ReadNamespacedDeployment "flask" "test-namespace") ;;
  md <- getattr_metadata deployment ;;
  _ <- assert (eq_str "flask" (md_name md)) ;;
  md <- getattr_metadata deployment ;;
  assert (eq_str "test-namespace" (md_namespace md)).

Definition test_flask_application_service : M W unit :=
  service <- do_call (ReadNamespacedService "flask" "test-namespace") ;;
  md <- getattr_metadata service ;;
  _ <- assert (eq_str "flask" (md_name md)) ;;
  md <- getattr_metadata service ;;
  assert (eq_str "test-namespace" (md_namespace md)).

Definition test_flask_application_ingress : M W unit :=
  ingress <- do_call (ReadNamespacedIngress "flask" "test-namespace") ;;
  md <- getattr_metadata ingress ;;
  _ <- assert (eq_str "flask" (md_name md)) ;;
  md <- getattr_metadata ingress ;;
  assert (eq_str "test-namespace" (md_namespace md)).

Definition TestGitOps : test_class W :=
  {| c_name := "TestGitOps";
     c_skipif := None;
     c_setup := setup_class;
     c_tests :=
       [("test_flask_application_namespace",
         test_flask_application_namespace);
        ("test_flask_application_deployment",
         test_flask_application_deployment);
        ("test_flask_application_service",
         test_flask_application_service);
        ("test_flask_application_ingress",
         test_flask_application_ingress)];
     c_teardown := None |}.

(** Line 36: the condition of the [skipif] mark, evaluated once when
    the class statement is executed. *)
Definition skip_condition : bool :=
  in_tuple (Conftest08.context opt) ["kind-cluster2"; "kind-cluster3"].

Definition conditional_setup_class : M W unit := ret tt.

Definition test_flask_internal_application_deployment : M W unit :=
  deployment <-
    do_call (ReadNamespacedDeployment "flask-internal" "test-namespace") ;;
  md <- getattr_metadata deployment ;;
  _ <- assert (eq_str "flask-internal" (md_name md)) ;;
  md <- getattr_metadata deployment ;;
  assert (eq_str "test-namespace" (md_namespace md)).

Definition test_flask_internal_application_service : M W unit :=
  service <-
    do_call (ReadNamespacedService "flask-internal" "test-namespace") ;;
  md <- getattr_metadata service ;;
  _ <- assert (eq_str "flask-internal" (md_name md)) ;;
  md <- getattr_metadata service ;;
  assert (eq_str "test-namespace" (md_namespace md)).

Definition test_flask_service2_application_namespace : M W unit :=
  namespace <- do_call (ReadNamespace "service2") ;;
  md <- getattr_metadata namespace ;;
  assert (eq_str "service2" (md_name md)).

Definition test_flask_service2_application_deployment : M W unit :=
  deployment <-
    do_call (ReadNamespacedDeployment "flask-different-namespace"
               "service2") ;;
  md <- getattr_metadata deployment ;;
  _ <- assert (eq_str "flask-different-namespace" (md_name md)) ;;
  md <- getattr_metadata deployment ;;
  assert (eq_str "service2" (md_namespace md)).

Definition test_flask_service2_application_service : M W unit :=
  service <-
    do_call (ReadNamespacedService "flask-different-namespace"
               "service2") ;;
  md <- getattr_metadata service ;;
  _ <- assert (eq_str "flask-different-namespace" (md_name md)) ;;
  md <- getattr_metadata service ;;
  assert (eq_str "service2" (md_namespace md)).

Definition TestGitOpsConditional : test_class W :=
  {| c_name := "TestGitOpsConditional";
     c_skipif := Some (skip_condition, "only deployed on development");
     c_setup := conditional_setup_class;
     c_tests :=
       [("test_flask_internal_application_deployment",
         test_flask_internal_application_deployment);
        ("test_flask_internal_application_service",
         test_flask_internal_application_service);
        ("test_flask_service2_application_namespace",
         test_flask_service2_application_namespace);
        ("test_flask_service2_application_deployment",
         test_flask_service2_application_deployment);
        ("test_flask_service2_application_service",
         test_flask_service2_application_service)];
     c_teardown := None |}.

Definition test_gitops : test_module W :=
  {| m_import := import_module;
     m_classes := [TestGitOps; TestGitOpsConditional] |}.

End Tests.

End GitOps09.

(** ** End-to-end checks, [03/tests/test_end_to_end.py] *)

Module EndToEnd03.
Import Py Pytest.

Section Tests.
Context {W : Type} `{World W}.

Definition test_index (endpoint : option string) : M W unit :=
  result <-
    do_call (RequestsGet ("http://" +:+ format_value endpoint +:+ "/")) ;;
  content <- getattr_content result ;;
  assert (Text.contains "hello" content).

End Tests.

End EndToEnd03.

(** ** End-to-end checks, [09/tests/test_end_to_end.py] *)

Module EndToEnd09.
Import Py Pytest.

Section Tests.
Context {W : Type} `{World W}.

Definition test_index (endpoint : option string) : M W unit :=
  result <-
    do_call (RequestsGet ("http://" +:+ format_value endpoint +:+ "/")) ;;
  content <- getattr_content result ;;
  assert (Text.contains "hello" content).

Definition test_cluster (endpoint : option string) : M W unit :=
  result <-
    do_call (RequestsGet
               ("http://" +:+ format_value endpoint +:+ "/cluster")) ;;
  content <- getattr_content result ;;
  data <- decode content ;;
  assert (Re.re_match Re.cluster_pattern data).

End Tests.

End EndToEnd09.

(** ** Unit tests of the responder, [09/tests/test_app.py] *)

Module TestApp.
Import Pytest.

(** [client.get(path)] on Flask's test client; [result.data] is the
    response body. *)
Definition client_get (path : string) (p : App.process)
  : App.response * App.process :=
  App.get path p.

Definition test_hello (p : App.process) : outcome * App.process :=
  let '(result, p') := client_get "/" p in
  (if Text.contains "hello" (App.body result)
   then Passed else Failed Py.AssertionError, p').

Definition test_cluster_identity (p : App.process)
  : outcome * App.process :=
  let '(result, p') := client_get "/cluster" p in
  (if Text.contains "This is service1 in cluster cluster1" (App.body result)
   then Passed else Failed Py.AssertionError, p').

End TestApp.

(** ** A concrete world: files, a kube-config, one cluster, some web pages

    An executable instance of [Py.World], used to run the harness on
    concrete inputs.  The cluster answers like an API server: 404 for a
    missing object or namespace, 409 for a duplicate create, 403 for a
    create inside a namespace that is being deleted, 422 for a body without
    a name; deleting a namespace only marks it [Terminating]. *)

Module Sim.
Import Py.

Inductive phase := Active | Terminating.

Record sim := {
  files : gmap string yaml;
  contexts : gset string;
  current_context : option string;
  namespaces : gmap string phase;
  deployments : gset (string * string);
  services : gset (string * string);
  ingresses : gset (string * string);
  pages : gmap string string
}.

Definition with_namespaces (f : gmap string phase -> gmap string phase)
    (w : sim) : sim :=
  {| files := files w; contexts := contexts w;
     current_context := current_context w;
     namespaces := f (namespaces w);
     deployments := deployments w; services := services w;
     ingresses := ingresses w; pages := pages w |}.

Definition with_deployments (s : gset (string * string)) (w : sim) : sim :=
  {| files := files w; contexts := contexts w;
     current_context := current_context w; namespaces := namespaces w;
     deployments := s; services := services w;
     ingresses := ingresses w; pages := pages w |}.

Definition with_services (s : gset (string * string)) (w : sim) : sim :=
  {| files := files w; contexts := contexts w;
     current_context := current_context w; namespaces := namespaces w;
     deployments := deployments w; services := s;
     ingresses := ingresses w; pages := pages w |}.

Definition with_ingresses (s : gset (string * string)) (w : sim) : sim :=
  {| files := files w; contexts := contexts w;
     current_context := current_context w; namespaces := namespaces w;
     deployments := deployments w; services := services w;
     ingresses := s; pages := pages w |}.

Fixpoint assoc (key : string) (items : list (string * yaml))
  : option yaml :=
  match items with
  | [] => None
  | (k, v) :: items' => if String.eqb k key then Some v else assoc key items'
  end.

(** [body["metadata"]["name"]]. *)
Definition manifest_name (body : pyval) : option string :=
  match body with
  | PyYaml (YMap top) =>
      match assoc "metadata" top with
      | Some (YMap md) =>
          match assoc "name" md with
          | Some (YStr s) => Some s
          | _ => None
          end
      | _ => None
      end
  | _ => None
  end.

Definition object (name : string) (namespace : option string) : pyval :=
  PyObject (Some {| md_name := Some name; md_namespace := namespace |}).

Definition create_namespaced (objs : gset (string * string))
    (store : gset (string * string) -> sim -> sim)
    (body : pyval) (ns : string) (w : sim) : result pyval * sim :=
  match namespaces w !! ns with
  | None => (Raise (ApiException 404), w)
  | Some Terminating => (Raise (ApiException 403), w)
  | Some Active =>
      match manifest_name body with
      | None => (Raise (ApiException 422), w)
      | Some n =>
          if bool_decide ((ns, n) ∈ objs)
          then (Raise (ApiException 409), w)
          else (Ok (object n (Some ns)), store ({[ (ns, n) ]} ∪ objs) w)
      end
  end.

Definition read_namespaced (objs : gset (string * string))
    (name ns : string) (w : sim) : result pyval * sim :=
  if bool_decide ((ns, name) ∈ objs)
  then (Ok (object name (Some ns)), w)
  else (Raise (ApiException 404), w).

Definition sim_perform (c : call) (w : sim) : result pyval * sim :=
  match c with
  | LoadKubeConfig ctx =>
      match (match ctx with Some _ => ctx | None => current_context w end)
      with
      | Some name =>
          if bool_decide (name ∈ contexts w)
          then (Ok PyNone, w) else (Raise ConfigException, w)
      | None => (Raise ConfigException, w)
      end
  | LoadYaml path =>
      match files w !! path with
      | Some doc => (Ok (PyYaml doc), w)
      | None => (Raise OSError, w)
      end
  | CreateNamespace body =>
      match manifest_name body with
      | None => (Raise (ApiException 422), w)
      | Some n =>
          match namespaces w !! n with
          | Some _ => (Raise (ApiException 409), w)
          | None => (Ok (object n None), with_namespaces (insert n Active) w)
          end
      end
  | ReadNamespace n =>
      match namespaces w !! n with
      | Some _ => (Ok (object n None), w)
      | None => (Raise (ApiException 404), w)
      end
  | DeleteNamespace n =>
      match namespaces w !! n with
      | Some _ => (Ok PyNone, with_namespaces (insert n Terminating) w)
      | None => (Raise (ApiException 404), w)
      end
  | CreateNamespacedDeployment body ns =>
      create_namespaced (deployments w) with_deployments body ns w
  | ReadNamespacedDeployment n ns => read_namespaced (deployments w) n ns w
  | CreateNamespacedService body ns =>
      create_namespaced (services w) with_services body ns w
  | ReadNamespacedService n ns => read_namespaced (services w) n ns w
  | CreateNamespacedIngress body ns =>
      create_namespaced (ingresses w) with_ingresses body ns w
  | ReadNamespacedIngress n ns => read_namespaced (ingresses w) n ns w
  | RequestsGet url =>
      match pages w !! url with
      | Some content => (Ok (PyResponse 200 content), w)
      | None => (Raise ConnectionError, w)
      end
  end.

#[global] Instance sim_world : World sim := sim_perform.

Definition manifest (kind name : string) (namespace : option string)
  : yaml :=
  YMap [("kind", YStr kind);
        ("metadata",
         YMap (("name", YStr name) ::
               match namespace with
               | Some ns => [("namespace", YStr ns)]
               | None => []
               end))].

(** The fixture files of the provisioning harness and a kube-config with
    the three kind clusters. *)
Definition fixtures : gmap string yaml :=
  <["namespace.yaml" := manifest "Namespace" "test-namespace" None]>
  (<["deployment.yaml" := manifest "Deployment" "flask" None]>
   (<["service.yaml" := manifest "Service" "flask" None]>
    (<["ingress.yaml" := manifest "Ingress" "flask" None]> ∅))).

(** A fresh development cluster: nothing deployed. *)
Definition fresh : sim :=
  {| files := fixtures;
     contexts := {[ "kind-cluster1"; "kind-cluster2"; "kind-cluster3" ]};
     current_context := Some "kind-cluster1";
     namespaces := ∅;
     deployments := ∅; services := ∅; ingresses := ∅;
     pages := ∅ |}.

(** The same cluster after an earlier run left [test-namespace] behind. *)
Definition leftover : sim :=
  with_namespaces (insert "test-namespace" Active) fresh.

(** The cluster after the GitOps controller deployed the application
    (without the development-only resources), and the responder served
    at [localhost:8080]. *)
Definition deployed : sim :=
  {| files := ∅;
     contexts := {[ "kind-cluster1"; "kind-cluster2"; "kind-cluster3" ]};
     current_context := Some "kind-cluster1";
     namespaces := {[ "test-namespace" := Active ]};
     deployments := {[ ("test-namespace", "flask") ]};
     services := {[ ("test-namespace", "flask") ]};
     ingresses := {[ ("test-namespace", "flask") ]};
     pages :=
       <["http://localhost:8080/" :=
           App.body (App.get_after ∅ [] "/")]>
       (<["http://localhost:8080/cluster" :=
           App.body (App.get_after ∅ [] "/cluster")]> ∅) |}.

(** Nothing listens at any URL. *)
Definition offline : sim := fresh.

End Sim.

(** ** The harness protocols, in the words of the specification

    These definitions are written from the specification, not from the
    test modules; the theorems below compare the two. *)

Module Protocol.
Import Py Pytest.

(** "Issue a read request for the resource and assert the returned name
    and namespace equal the expected literals." *)
Record read_spec := {
  r_call : call;
  r_name : string;
  r_namespace : option string   (* [None] for a cluster-scoped kind *)
}.

Definition identity_ok (k : read_spec) (md : V1ObjectMeta) : bool :=
  eq_str (r_name k) (md_name md) &&
  match r_namespace k with
  | Some ns => eq_str ns (md_namespace md)
  | None => true
  end.

(** The verdict on the answer to the one read request: a fault fails
    the unit, otherwise the identity fields decide. *)
Definition verdict (k : read_spec) (res : result pyval) : outcome :=
  match res with
  | Raise f => Failed f
  | Ok (PyObject (Some md)) =>
      if identity_ok k md then Passed else Failed AssertionError
  | Ok _ => Failed AttributeError
  end.

(** Verification-only unit: exactly one read, then the assertions. *)
Definition verifies (k : read_spec) (r : report) : Prop :=
  exists res,
    calls r = [{| e_call := r_call k; e_result := res |}] /\
    outcome_of r = verdict k res.

(** "Load a manifest from a fixture file, submit a create request, then
    issue a read request for the same resource and assert." *)
Record unit_spec := {
  u_fixture : string;
  u_create : pyval -> call;
  u_check : read_spec
}.

(** Provisioning unit: the three calls in order, each made once; the
    first fault ends the unit and is its outcome. *)
Inductive provisions (u : unit_spec) (r : report) : Prop :=
| load_faults f :
    calls r = [{| e_call := LoadYaml (u_fixture u); e_result := Raise f |}] ->
    outcome_of r = Failed f ->
    provisions u r
| create_faults m f :
    calls r = [{| e_call := LoadYaml (u_fixture u); e_result := Ok m |};
               {| e_call := u_create u m; e_result := Raise f |}] ->
    outcome_of r = Failed f ->
    provisions u r
| read_answers m o res :
    calls r = [{| e_call := LoadYaml (u_fixture u); e_result := Ok m |};
               {| e_call := u_create u m; e_result := Ok o |};
               {| e_call := r_call (u_check u); e_result := res |}] ->
    outcome_of r = verdict (u_check u) res ->
    provisions u r.

(** Each call of a unit is of the kind its place in the protocol says. *)
Definition well_kinded (u : unit_spec) : Prop :=
  (forall m, is_create (u_create u m) = true /\
             is_read (u_create u m) = false /\
             is_delete (u_create u m) = false) /\
  is_create (r_call (u_check u)) = false /\
  is_read (r_call (u_check u)) = true /\
  is_delete (r_call (u_check u)) = false.

(** "Failure of the create call surfaces as an uncaught fault that
    aborts the remaining assertions in that test unit": the faulting
    create is the unit's last call, no read follows, and the fault is
    the unit's outcome. *)
Definition create_fault_contained (r : report) : Prop :=
  forall e f,
    e ∈ calls r ->
    is_create (e_call e) = true ->
    e_result e = Raise f ->
    outcome_of r = Failed f /\
    last (calls r) = Some e /\
    count_calls is_read (calls r) = 0.

(** A unit none of whose calls faulted makes all three calls of the
    protocol, in order, the create carrying the manifest just loaded. *)
Definition fault_free (r : report) : Prop :=
  Forall (fun e => faulted e = false) (calls r).

Definition completes (u : unit_spec) (r : report) : Prop :=
  fault_free r ->
  exists m,
    map e_call (calls r) =
    [LoadYaml (u_fixture u); u_create u m; r_call (u_check u)].

(** A unit that ran: it was not skipped and made its first call. *)
Definition ran (r : report) : Prop :=
  executed r = true /\ calls r <> [].

Definition read_namespace (n : string) : read_spec :=
  {| r_call := ReadNamespace n; r_name := n; r_namespace := None |}.

Definition read_deployment (n ns : string) : read_spec :=
  {| r_call := ReadNamespacedDeployment n ns;
     r_name := n; r_namespace := Some ns |}.

Definition read_service (n ns : string) : read_spec :=
  {| r_call := ReadNamespacedService n ns;
     r_name := n; r_namespace := Some ns |}.

Definition read_ingress (n ns : string) : read_spec :=
  {| r_call := ReadNamespacedIngress n ns;
     r_name := n; r_namespace := Some ns |}.

Definition namespace_unit : unit_spec :=
  {| u_fixture := "namespace.yaml";
     u_create := CreateNamespace;
     u_check := read_namespace "test-namespace" |}.

Definition deployment_unit : unit_spec :=
  {| u_fixture := "deployment.yaml";
     u_create := fun body => CreateNamespacedDeployment body "test-namespace";
     u_check := read_deployment "flask" "test-namespace" |}.

Definition service_unit : unit_spec :=
  {| u_fixture := "service.yaml";
     u_create := fun body => CreateNamespacedService body "test-namespace";
     u_check := read_service "flask" "test-namespace" |}.

Definition ingress_unit : unit_spec :=
  {| u_fixture := "ingress.yaml";
     u_create := fun body => CreateNamespacedIngress body "test-namespace";
     u_check := read_ingress "flask" "test-namespace" |}.

(** "Namespace, then deployment, then service, then ingress." *)
Definition provisioning_order : list unit_spec :=
  [namespace_unit; deployment_unit; service_unit; ingress_unit].

(** The resources every cluster is expected to carry. *)
Definition unconditional_group : list read_spec :=
  [ read_namespace "test-namespace";
    read_deployment "flask" "test-namespace";
    read_service "flask" "test-namespace";
    read_ingress "flask" "test-namespace" ].

(** The resources deployed on the development cluster only. *)
Definition conditional_group : list read_spec :=
  [ read_deployment "flask-internal" "test-namespace";
    read_service "flask-internal" "test-namespace";
    read_namespace "service2";
    read_deployment "flask-different-namespace" "service2";
    read_service "flask-different-namespace" "service2" ].

(** The contexts on which the conditional group is not expected. *)
Definition denylist : list (option string) :=
  [Some "kind-cluster2"; Some "kind-cluster3"].

Definition skipped (r : report) : Prop :=
  outcome_of r = Skipped "only deployed on development" /\ calls r = [].

(** "A single attempt": one GET, whose answer [res] alone decides. *)
Definition single_get (url : string) (decide : result pyval -> outcome)
    (res : result pyval) (r : report) : Prop :=
  calls r = [{| e_call := RequestsGet url; e_result := res |}] /\
  outcome_of r = decide res.

(** End-to-end checks: the verdict on the answer to the one GET. *)
Definition index_verdict (res : result pyval) : outcome :=
  match res with
  | Raise f => Failed f
  | Ok (PyResponse _ content) =>
      if Text.contains "hello" content
      then Passed else Failed AssertionError
  | Ok _ => Failed AttributeError
  end.

(** For a body of ASCII text: decoding it changes nothing, and the
    pattern decides. *)
Definition cluster_verdict (res : result pyval) : outcome :=
  match res with
  | Raise f => Failed f
  | Ok (PyResponse _ content) =>
      if Re.re_match Re.cluster_pattern content
      then Passed else Failed AssertionError
  | Ok _ => Failed AttributeError
  end.

(** The answers on which [cluster_verdict] speaks: a fault, or a
    response whose body is ASCII text. *)
Definition ascii_answer (res : result pyval) : Prop :=
  match res with
  | Ok (PyResponse _ content) => Re.all_chars is_ascii content = true
  | _ => True
  end.

(** "A single attempt" whose verdict is stated for the answers in
    [domain] only; the one GET is made whatever the answer. *)
Definition single_get_on (domain : result pyval -> Prop) (url : string)
    (decide : result pyval -> outcome) (res : result pyval) (r : report)
  : Prop :=
  calls r = [{| e_call := RequestsGet url; e_result := res |}] /\
  (domain res -> outcome_of r = decide res).

End Protocol.

(** ** What it takes for a unit to pass *)

Module Criteria.
Import Py Pytest Protocol.

(** A verification-only test passes exactly when its one read returned
    an object whose metadata carries the expected name and, for a
    namespaced kind, the expected namespace. *)
Definition read_passes (k : read_spec) (r : report) : Prop :=
  outcome_of r = Passed <->
  exists md,
    calls r = [{| e_call := r_call k; e_result := Ok (PyObject (Some md)) |}]
    /\ md_name md = Some (r_name k)
    /\ (forall ns, r_namespace k = Some ns -> md_namespace md = Some ns).

(** A provisioning test passes exactly when the fixture was loaded, the
    create call returned (whatever it returned), and the read returned
    an object with the expected identity. *)
Definition unit_passes (u : unit_spec) (r : report) : Prop :=
  outcome_of r = Passed <->
  exists m o md,
    calls r =
      [{| e_call := LoadYaml (u_fixture u); e_result := Ok m |};
       {| e_call := u_create u m; e_result := Ok o |};
       {| e_call := r_call (u_check u);
          e_result := Ok (PyObject (Some md)) |}]
    /\ md_name md = Some (r_name (u_check u))
    /\ (forall ns,
          r_namespace (u_check u) = Some ns -> md_namespace md = Some ns).

(** A provisioning test begins by loading its own fixture; if that load
    faults, it is the test's only call and its fault is the outcome. *)
Definition load_guards (u : unit_spec) (r : report) : Prop :=
  exists res rest,
    calls r =
      {| e_call := LoadYaml (u_fixture u); e_result := res |} :: rest /\
    forall f, res = Raise f -> rest = [] /\ outcome_of r = Failed f.

End Criteria.

(** * Properties *)

#[local] Arguments String.append !_ _ / : simpl nomatch.

(** ** Text *)

Section TextFacts.
Import Text.

Lemma append_assoc_s (a b c : string) : (a +:+ b) +:+ c = a +:+ (b +:+ c).
Proof. induction a as [|x a IH]; simpl; [done | by rewrite IH]. Qed.

Lemma append_nil_r (a : string) : a +:+ "" = a.
Proof. induction a as [|x a IH]; simpl; [done | by rewrite IH]. Qed.

Lemma prefixb_spec p s :
  prefixb p s = true <-> exists rest, s = p +:+ rest.
Proof.
  revert s. induction p as [|a p IH]; intros s; simpl.
  - split; [intros _; by exists s | done].
  - destruct s as [|b s].
    + split; [done | intros [rest E]; discriminate E].
    + destruct (Ascii.eqb_spec a b) as [->|Hne].
      * rewrite IH. split; intros [rest E]; exists rest.
        -- by rewrite E.
        -- by injection E.
      * split; [done |].
        intros [rest E]. injection E as E1 E2. by destruct Hne.
Qed.

Lemma contains_spec needle hay :
  contains needle hay = true <->
  exists pre post, hay = pre +:+ needle +:+ post.
Proof.
  induction hay as [|c hay IH].
  - simpl. rewrite orb_false_r, prefixb_spec. split.
    + intros [rest E]. by exists "", rest.
    + intros [pre [post E]].
      destruct pre; [by exists post | discriminate E].
  - cbn [contains]. rewrite orb_true_iff, prefixb_spec, IH. split.
    + intros [[rest E] | [pre [post E]]].
      * by exists "", rest.
      * exists (String c pre), post. simpl. by rewrite E.
    + intros [pre [post E]]. destruct pre as [|c' pre].
      * left. by exists post.
      * right. exists pre, post. simpl in E. by injection E.
Qed.

End TextFacts.

(** ** The matcher computes the prefix language of the pattern *)

Section ReFacts.
Import Re.

Lemma lit_match_spec l s k :
  lit_match l s k = true <-> exists rest, s = l +:+ rest /\ k rest = true.
Proof.
  revert s. induction l as [|a l IH]; intros s; simpl.
  - split; [intros Hk; by exists s | by intros [rest [-> Hk]]].
  - destruct s as [|b s].
    + split; [done | intros [rest [E _]]; discriminate E].
    + destruct (Ascii.eqb_spec a b) as [->|Hne].
      * rewrite IH. split; intros [rest [E Hk]]; exists rest; split; trivial.
        -- by rewrite E.
        -- by injection E.
      * split; [done |].
        intros [rest [E _]]. injection E as E1 E2. by destruct Hne.
Qed.

Lemma matches_plus_inv cls s :
  matches (Plus cls) s ->
  exists c s', s = String c s' /\ cls c = true /\
               (s' = "" \/ matches (Plus cls) s').
Proof.
  intros Hm. inversion Hm; subst; eauto 6.
Qed.

Lemma plus_match_spec cls s k :
  plus_match cls s k = true <->
  exists s1 s2, s = s1 +:+ s2 /\ matches (Plus cls) s1 /\ k s2 = true.
Proof.
  induction s as [|c s IH]; simpl.
  - split; [done |]. intros (s1 & s2 & E & Hm & _).
    apply matches_plus_inv in Hm as (c & s' & -> & _). discriminate E.
  - destruct (cls c) eqn:Hc.
    + rewrite orb_true_iff, IH. split.
      * intros [(s1 & s2 & -> & Hm & Hk) | Hk].
        -- exists (String c s1), s2. repeat split; trivial.
           by apply MPlusS.
        -- exists (String c ""), s. repeat split; trivial.
           by apply MPlus1.
      * intros (s1 & s2 & E & Hm & Hk).
        apply matches_plus_inv in Hm as (c' & s' & -> & _ & Hs').
        simpl in E. injection E as -> ->.
        destruct Hs' as [-> | Hm]; [by right | left; eauto].
    + split; [done |]. intros (s1 & s2 & E & Hm & _).
      apply matches_plus_inv in Hm as (c' & s' & -> & Hc' & _).
      simpl in E. injection E as -> _. congruence.
Qed.

Lemma rmatch_spec r : forall s k,
  rmatch r s k = true <->
  exists s1 s2, s = s1 +:+ s2 /\ matches r s1 /\ k s2 = true.
Proof.
  induction r as [l | cls | r1 IH1 r2 IH2 | r IH]; intros s k; simpl.
  - rewrite lit_match_spec. split.
    + intros (rest & -> & Hk). exists l, rest. repeat split; trivial.
      apply MLit.
    + intros (s1 & s2 & -> & Hm & Hk). inversion Hm; subst. eauto.
  - apply plus_match_spec.
  - rewrite IH1. split.
    + intros (s1 & s2 & -> & Hm1 & Hk).
      apply IH2 in Hk as (s3 & s4 & -> & Hm2 & Hk).
      exists (s1 +:+ s3), s4. rewrite append_assoc_s.
      repeat split; trivial. by apply MCat.
    + intros (s1 & s2 & -> & Hm & Hk). inversion Hm; subst.
      eexists _, _. rewrite append_assoc_s. repeat split; [eassumption |].
      apply IH2. eauto.
  - rewrite IH. split; intros (s1 & s2 & -> & Hm & Hk); exists s1, s2;
      repeat split; trivial; [by apply MGroup | by inversion Hm].
Qed.

(** [re.match] succeeds exactly when a prefix of the subject is a word
    of the pattern. *)
Lemma re_match_spec r s :
  re_match r s = true <-> exists s1 s2, s = s1 +:+ s2 /\ matches r s1.
Proof.
  unfold re_match. rewrite rmatch_spec.
  split.
  - intros (s1 & s2 & E & Hm & _). eauto.
  - intros (s1 & s2 & E & Hm). exists s1, s2. auto.
Qed.

Lemma matches_plus_all cls s :
  s <> "" -> all_chars cls s = true -> matches (Plus cls) s.
Proof.
  induction s as [|c s IH]; [done |]. intros _. simpl.
  rewrite andb_true_iff. intros [Hc Hs]. destruct s as [|c' s].
  - by apply MPlus1.
  - apply MPlusS; [done |]. by apply IH.
Qed.

End ReFacts.

(** ** The responder *)

Section AppFacts.
Import App.

Lemma get_keeps_state path p : snd (get path p) = p.
Proof.
  unfold get. destruct (String.eqb path "/"); [done |].
  by destruct (String.eqb path "/cluster").
Qed.

(** A response is a function of the path and the two globals only. *)
Lemma get_reads_globals path p q :
  name p = name q -> cluster_name p = cluster_name q ->
  fst (get path p) = fst (get path q).
Proof.
  intros Hn Hc. unfold get, hello, cluster.
  destruct (String.eqb path "/"); [done |].
  destruct (String.eqb path "/cluster"); [| done].
  simpl. by rewrite Hn, Hc.
Qed.

Lemma step_keeps_globals e p :
  name (snd (step e p)) = name p /\
  cluster_name (snd (step e p)) = cluster_name p /\
  getenv_calls (os (snd (step e p))) = getenv_calls (os p).
Proof.
  destruct e as [path | k v | k]; simpl; [| done | done].
  pose proof (get_keeps_state path p) as E.
  destruct (get path p) as [r p']. simpl in *. by subst.
Qed.

Lemma run_keeps_globals evs : forall p,
  name (snd (run evs p)) = name p /\
  cluster_name (snd (run evs p)) = cluster_name p /\
  getenv_calls (os (snd (run evs p))) = getenv_calls (os p).
Proof.
  induction evs as [|e evs IH]; intros p; simpl; [done |].
  pose proof (step_keeps_globals e p) as (E1 & E2 & E3).
  destruct (step e p) as [rs p']. simpl in *.
  pose proof (IH p') as (F1 & F2 & F3).
  destruct (run evs p') as [rs' p'']. simpl in *.
  repeat split; congruence.
Qed.

Lemma boot_globals env :
  name (boot env) = default "service1" (env !! "NAME") /\
  cluster_name (boot env) = default "cluster1" (env !! "CLUSTER") /\
  getenv_calls (os (boot env)) = ["NAME"; "CLUSTER"].
Proof. done. Qed.

Lemma get_after_boot env evs path :
  get_after env evs path = fst (get path (boot env)).
Proof.
  unfold get_after.
  pose proof (run_keeps_globals evs (boot env)) as (E1 & E2 & _).
  by apply get_reads_globals.
Qed.

Lemma cluster_body env evs :
  get_after env evs "/cluster" =
  {| status := 200;
     body := "This is " +:+ default "service1" (env !! "NAME") +:+
             " in cluster " +:+ default "cluster1" (env !! "CLUSTER") |}.
Proof. by rewrite get_after_boot. Qed.

(** C1. With [NAME] and [CLUSTER] both unset when the process starts, a
    GET of [/cluster], whatever happened since start-up, is answered with
    status 200 and the body [This is service1 in cluster cluster1]. *)
Theorem cluster_default_identity (env : gmap string string)
    (evs : list event) :
  env !! "NAME" = None ->
  env !! "CLUSTER" = None ->
  get_after env evs "/cluster" =
  {| status := 200; body := "This is service1 in cluster cluster1" |}.
Proof.
  intros Hn Hc. rewrite cluster_body, Hn, Hc. reflexivity.
Qed.

Lemma cluster_default_identity_witness :
  (∅ : gmap string string) !! "NAME" = None /\
  (∅ : gmap string string) !! "CLUSTER" = None /\
  get_after ∅ [Get "/"; Setenv "NAME" "other"] "/cluster" =
  {| status := 200; body := "This is service1 in cluster cluster1" |}.
Proof.
  split; [reflexivity |]. split; [reflexivity |].
  apply (cluster_default_identity ∅ [Get "/"; Setenv "NAME" "other"]);
    reflexivity.
Defined.

(** C6. Whatever the environment at start-up and whatever happened
    since, a GET of [/] is answered with status 200 and a body that
    contains [hello]; the unit test [test_hello] passes accordingly. *)
Theorem index_contains_hello (env : gmap string string)
    (evs : list event) :
  status (get_after env evs "/") = 200%Z /\
  Text.contains "hello" (body (get_after env evs "/")) = true /\
  fst (TestApp.test_hello (snd (run evs (boot env)))) = Pytest.Passed.
Proof.
  rewrite get_after_boot. split; [| split]; reflexivity.
Qed.

(** C8. The responder is a function of the environment at start-up:
    two GETs of the same path are answered identically whatever
    requests and environment writes preceded each of them; the identity
    pair keeps the values read at import, [os.getenv] having been called
    once per variable and never again; and no request changes the
    process state. *)
Theorem responder_is_pure (env : gmap string string) :
  (forall evs1 evs2 path,
      get_after env evs1 path = get_after env evs2 path) /\
  (forall evs,
      let p := snd (run evs (boot env)) in
      name p = default "service1" (env !! "NAME") /\
      cluster_name p = default "cluster1" (env !! "CLUSTER") /\
      getenv_calls (os p) = ["NAME"; "CLUSTER"]) /\
  (forall path p, snd (get path p) = p).
Proof.
  split; [| split].
  - intros evs1 evs2 path. by rewrite !get_after_boot.
  - intros evs p.
    pose proof (run_keeps_globals evs (boot env)) as (E1 & E2 & E3).
    pose proof (boot_globals env) as (F1 & F2 & F3).
    subst p. repeat split; congruence.
  - apply get_keeps_state.
Qed.

(** C2, as amended. When [NAME] is a non-empty run of word characters
    and [CLUSTER] begins with a word character, the body of [/cluster]
    matches [This is (\w+) in cluster (\w+)] at its start. *)
Theorem cluster_body_matches_pattern (env : gmap string string)
    (evs : list event) (n c : string) :
  env !! "NAME" = Some n ->
  env !! "CLUSTER" = Some c ->
  n <> "" ->
  Re.all_chars Re.is_word n = true ->
  Re.starts_with Re.is_word c = true ->
  Re.re_match Re.cluster_pattern (body (get_after env evs "/cluster"))
  = true.
Proof.
  intros Hn Hc Hne Hall Hstart. rewrite cluster_body, Hn, Hc. simpl body.
  destruct c as [|c0 rest]; [done |]. simpl in Hstart.
  apply re_match_spec.
  exists ("This is " +:+ n +:+ " in cluster " +:+ String c0 ""), rest.
  split.
  - rewrite !append_assoc_s. reflexivity.
  - unfold Re.cluster_pattern.
    apply Re.MCat; [apply Re.MLit |].
    apply Re.MCat; [apply Re.MGroup; by apply matches_plus_all |].
    apply Re.MCat; [apply Re.MLit |].
    apply Re.MGroup. by apply Re.MPlus1.
Qed.

Lemma cluster_body_matches_pattern_witness :
  "service_2" <> "" /\
  Re.all_chars Re.is_word "service_2" = true /\
  Re.starts_with Re.is_word "c-west" = true /\
  Re.re_match Re.cluster_pattern
    (body (get_after
             (<["NAME" := "service_2"]> (<["CLUSTER" := "c-west"]> ∅))
             [] "/cluster")) = true.
Proof.
  split; [discriminate |]. split; [reflexivity |]. split; [reflexivity |].
  apply (cluster_body_matches_pattern
           (<["NAME" := "service_2"]> (<["CLUSTER" := "c-west"]> ∅))
           [] "service_2" "c-west"); try reflexivity.
  discriminate.
Defined.

(** C2, as stated, fails: [NAME=my-service] and [CLUSTER=cluster1] are
    both non-empty, yet the body does not match the pattern. *)
Lemma cluster_body_hyphen_mismatch :
  let env : gmap string string :=
    <["NAME" := "my-service"]> (<["CLUSTER" := "cluster1"]> ∅) in
  env !! "NAME" = Some "my-service" /\ "my-service" <> "" /\
  env !! "CLUSTER" = Some "cluster1" /\ "cluster1" <> "" /\
  body (get_after env [] "/cluster")
  = "This is my-service in cluster cluster1" /\
  Re.re_match Re.cluster_pattern (body (get_after env [] "/cluster"))
  = false.
Proof. vm_compute. repeat split; discriminate. Qed.

End AppFacts.

(** ** The runner *)

Section RunnerFacts.
Import Py Pytest.
Context {W : Type} `{World W}.

(** Each report of [run_tests] is the report of running that test alone
    from the world its predecessors left. *)
Lemma run_tests_reports (ts : list (string * M W unit)) : forall w,
  Forall2 (fun t r => exists w0, r = fst (run_test (fst t) (snd t) w0))
    ts (fst (run_tests ts w)).
Proof.
  induction ts as [|[id t] ts IH]; intros w; cbn [run_tests];
    [constructor |].
  destruct (run_test id t w) as [r w1] eqn:E.
  specialize (IH w1). destruct (run_tests ts w1) as [rs w2].
  cbn [fst snd] in *.
  constructor; [| done]. exists w. cbn [fst snd]. by rewrite E.
Qed.

Lemma run_test_nodeid id (t : M W unit) w :
  nodeid (fst (run_test id t w)) = id.
Proof. unfold run_test. by destruct (t _). Qed.

Lemma run_tests_nodeids (ts : list (string * M W unit)) : forall w,
  map nodeid (fst (run_tests ts w)) = map fst ts.
Proof.
  induction ts as [|[id t] ts IH]; intros w; cbn [run_tests]; [done |].
  pose proof (run_test_nodeid id t w) as E.
  destruct (run_test id t w) as [r w1].
  specialize (IH w1). destruct (run_tests ts w1) as [rs w2]. simpl in *.
  by rewrite E, IH.
Qed.

(** A class that is not skipped, whose [setup_class] makes no call and
    which has a test: its tests run in order, then its teardown. *)
Lemma run_class_unskipped (c : test_class W) w :
  (c_skipif c = None \/ exists reason, c_skipif c = Some (false, reason)) ->
  c_setup c = ret tt ->
  c_tests c <> [] ->
  fst (run_class c w) =
  {| reports := fst (run_tests (c_tests c) w);
     teardown :=
       match c_teardown c with
       | Some td =>
           Some (fst (run_test "teardown_class" td
                        (snd (run_tests (c_tests c) w))))
       | None => None
       end |}.
Proof.
  intros Hskip Hsetup Htests. unfold run_class. rewrite Hsetup.
  assert (run_test "setup_class" (ret tt) w =
          ({| nodeid := "setup_class"; outcome_of := Passed; calls := [] |},
           w)) as -> by reflexivity.
  cbn [outcome_of].
  destruct Hskip as [-> | [reason ->]];
    (destruct (c_tests c) as [|t ts]; [done |];
     destruct (run_tests (t :: ts) w) as [rs w1]; cbn [fst snd];
     destruct (c_teardown c) as [td|]; [| done];
     by destruct (run_test "teardown_class" td w1)).
Qed.

Lemma run_class_skipped (c : test_class W) w reason :
  c_skipif c = Some (true, reason) ->
  run_class c w =
  ({| reports := mark_all (Skipped reason) (c_tests c); teardown := None |},
   w).
Proof. intros Hskip. unfold run_class. by rewrite Hskip. Qed.

(** A property shared by the reports of every test alone carries over
    to the reports of the whole run, in order. *)
Lemma run_tests_Forall2 {S} (Q : S -> report -> Prop) (us : list S)
    (ts : list (string * M W unit)) :
  Forall2 (fun u t => forall id w, Q u (fst (run_test id (snd t) w)))
    us ts ->
  forall w, Forall2 Q us (fst (run_tests ts w)).
Proof.
  induction 1 as [|u [id t] us ts Hut _ IH]; intros w; cbn [run_tests];
    [constructor |].
  pose proof (Hut id w) as Hr. cbn [snd] in Hr.
  destruct (run_test id t w) as [r w1].
  specialize (IH w1). destruct (run_tests ts w1) as [rs w2].
  by constructor.
Qed.

(** A collected module: the import returned, and the classes ran from
    the world the import left. *)
Lemma run_module_collected (m : test_module W) w :
  collected (fst (run_module m w)) = true ->
  exists ic w1,
    m_import m {| world := w; trace := [] |}
    = (Ok tt, {| world := w1; trace := ic |}) /\
    fst (run_module m w) = Ran ic (fst (run_classes (m_classes m) w1)).
Proof.
  unfold run_module.
  destruct (m_import m _) as [[[]|f] [w1 ic]]; [| done]. intros _.
  exists ic, w1. split; [done |]. cbn [world trace].
  by destruct (run_classes (m_classes m) w1).
Qed.

Lemma run_module_uncollected (m : test_module W) w :
  collected (fst (run_module m w)) = false ->
  exists f ic w1,
    m_import m {| world := w; trace := [] |}
    = (Raise f, {| world := w1; trace := ic |}) /\
    fst (run_module m w) = CollectionError f ic.
Proof.
  unfold run_module.
  destruct (m_import m _) as [[[]|f] [w1 ic]].
  - by destruct (run_classes (m_classes m) _).
  - intros _. by exists f, ic, w1.
Qed.

End RunnerFacts.

Section UnitFacts.
Import Py Pytest Protocol.
Context {W : Type} `{World W}.

Ltac run_world :=
  unfold run_test, bind, do_call; cbn [world trace];
  repeat (match goal with
          | |- context [perform ?c ?w] =>
              destruct (perform c w) as [[?|?] ?]
          end; cbn [world trace app bind ret]).

Ltac settle_checks :=
  unfold verdict, identity_ok; cbn -[eq_str];
  repeat match goal with
         | E : eq_str _ _ = _ |- _ => rewrite E; cbn -[eq_str]
         end;
  repeat match goal with
         | |- context [eq_str ?a ?b] =>
             destruct (eq_str a b) eqn:?; cbn -[eq_str]
         end;
  try reflexivity.

Ltac settle_unit :=
  cbn [fst];
  first
    [ by eapply load_faults
    | by eapply create_faults
    | match goal with
      | |- context [getattr_metadata ?v] => destruct v as [| |[[? ?]|]|]
      | _ => idtac
      end;
      settle_checks;
      (eapply read_answers; [reflexivity | settle_checks]) ].

Lemma smoke04_namespace id w :
  provisions namespace_unit
    (fst (run_test id Smoke04.test_create_namespace w)).
Proof. unfold Smoke04.test_create_namespace. run_world; settle_unit. Qed.

Lemma smoke04_deployment id w :
  provisions deployment_unit
    (fst (run_test id Smoke04.test_create_deployment w)).
Proof. unfold Smoke04.test_create_deployment. run_world; settle_unit. Qed.

Lemma smoke04_service id w :
  provisions service_unit
    (fst (run_test id Smoke04.test_create_service w)).
Proof. unfold Smoke04.test_create_service. run_world; settle_unit. Qed.

Lemma smoke04_ingress id w :
  provisions ingress_unit
    (fst (run_test id Smoke04.test_create_ingress w)).
Proof. unfold Smoke04.test_create_ingress. run_world; settle_unit. Qed.

Lemma smoke03_namespace id w :
  provisions namespace_unit
    (fst (run_test id Smoke03.test_create_namespace w)).
Proof. unfold Smoke03.test_create_namespace. run_world; settle_unit. Qed.

Lemma smoke03_deployment id w :
  provisions deployment_unit
    (fst (run_test id Smoke03.test_create_deployment w)).
Proof. unfold Smoke03.test_create_deployment. run_world; settle_unit. Qed.

Lemma gfk_namespace id w :
  provisions namespace_unit
    (fst (run_test id SmokeGfk.test_create_namespace w)).
Proof. unfold SmokeGfk.test_create_namespace. run_world; settle_unit. Qed.

Ltac settle_read :=
  cbn [fst];
  match goal with
  | |- context [getattr_metadata ?v] => destruct v as [| |[[? ?]|]|]
  | _ => idtac
  end;
  settle_checks;
  (eexists; split; [reflexivity | settle_checks]).

Lemma gitops09_namespace id w :
  verifies (read_namespace "test-namespace")
    (fst (run_test id GitOps09.test_flask_application_namespace w)).
Proof.
  unfold GitOps09.test_flask_application_namespace, verifies.
  run_world; settle_read.
Qed.

Lemma gitops09_deployment id w :
  verifies (read_deployment "flask" "test-namespace")
    (fst (run_test id GitOps09.test_flask_application_deployment w)).
Proof.
  unfold GitOps09.test_flask_application_deployment, verifies.
  run_world; settle_read.
Qed.

Lemma gitops09_service id w :
  verifies (read_service "flask" "test-namespace")
    (fst (run_test id GitOps09.test_flask_application_service w)).
Proof.
  unfold GitOps09.test_flask_application_service, verifies.
  run_world; settle_read.
Qed.

Lemma gitops09_ingress id w :
  verifies (read_ingress "flask" "test-namespace")
    (fst (run_test id GitOps09.test_flask_application_ingress w)).
Proof.
  unfold GitOps09.test_flask_application_ingress, verifies.
  run_world; settle_read.
Qed.

Lemma gitops09_internal_deployment id w :
  verifies (read_deployment "flask-internal" "test-namespace")
    (fst (run_test id GitOps09.test_flask_internal_application_deployment
            w)).
Proof.
  unfold GitOps09.test_flask_internal_application_deployment, verifies.
  run_world; settle_read.
Qed.

Lemma gitops09_internal_service id w :
  verifies (read_service "flask-internal" "test-namespace")
    (fst (run_test id GitOps09.test_flask_internal_application_service w)).
Proof.
  unfold GitOps09.test_flask_internal_application_service, verifies.
  run_world; settle_read.
Qed.

Lemma gitops09_service2_namespace id w :
  verifies (read_namespace "service2")
    (fst (run_test id GitOps09.test_flask_service2_application_namespace
            w)).
Proof.
  unfold GitOps09.test_flask_service2_application_namespace, verifies.
  run_world; settle_read.
Qed.

Lemma gitops09_service2_deployment id w :
  verifies (read_deployment "flask-different-namespace" "service2")
    (fst (run_test id GitOps09.test_flask_service2_application_deployment
            w)).
Proof.
  unfold GitOps09.test_flask_service2_application_deployment, verifies.
  run_world; settle_read.
Qed.

Lemma gitops09_service2_service id w :
  verifies (read_service "flask-different-namespace" "service2")
    (fst (run_test id GitOps09.test_flask_service2_application_service w)).
Proof.
  unfold GitOps09.test_flask_service2_application_service, verifies.
  run_world; settle_read.
Qed.

Lemma gitops06_namespace id w :
  verifies (read_namespace "test-namespace")
    (fst (run_test id GitOps06.test_flask_application_namespace w)).
Proof.
  unfold GitOps06.test_flask_application_namespace, verifies.
  run_world; settle_read.
Qed.

Lemma gitops06_deployment id w :
  verifies (read_deployment "flask" "test-namespace")
    (fst (run_test id GitOps06.test_flask_application_deployment w)).
Proof.
  unfold GitOps06.test_flask_application_deployment, verifies.
  run_world; settle_read.
Qed.

Lemma gitops06_service id w :
  verifies (read_service "flask" "test-namespace")
    (fst (run_test id GitOps06.test_flask_application_service w)).
Proof.
  unfold GitOps06.test_flask_application_service, verifies.
  run_world; settle_read.
Qed.

Lemma gitops06_ingress id w :
  verifies (read_ingress "flask" "test-namespace")
    (fst (run_test id GitOps06.test_flask_application_ingress w)).
Proof.
  unfold GitOps06.test_flask_application_ingress, verifies.
  run_world; settle_read.
Qed.

Lemma teardown_report (td : M W unit) w :
  td = (_ <- do_call (DeleteNamespace "test-namespace") ;; ret tt) ->
  exists res,
    calls (fst (run_test "teardown_class" td w))
    = [{| e_call := DeleteNamespace "test-namespace"; e_result := res |}].
Proof. intros ->. run_world; cbn; eauto. Qed.

End UnitFacts.

Section ProtocolFacts.
Import Py Pytest Protocol.

Lemma verdict_executed k res :
  match verdict k res with Skipped _ => False | _ => True end.
Proof.
  unfold verdict. destruct res as [[| |[md|]|]|f]; try done.
  by destruct (identity_ok k md).
Qed.

Lemma verifies_ran k r : verifies k r -> ran r.
Proof.
  intros (res & Hc & Ho). unfold ran, executed. rewrite Hc, Ho.
  pose proof (verdict_executed k res). split; [| done].
  by destruct (verdict k res).
Qed.

Lemma provisions_ran u r : provisions u r -> ran r.
Proof.
  unfold ran, executed.
  intros [f Hc Ho | m f Hc Ho | m o res Hc Ho]; rewrite Hc, Ho;
    split; try done.
  pose proof (verdict_executed (u_check u) res).
  by destruct (verdict (u_check u) res).
Qed.

Lemma provisioning_order_well_kinded : Forall well_kinded provisioning_order.
Proof. repeat constructor. Qed.

Lemma provisions_contains_create_fault u r :
  well_kinded u -> provisions u r -> create_fault_contained r.
Proof.
  intros (Hcreate & Hrc & Hrr & _) Hp e f He Hk Hres.
  destruct Hp as [f' Hc Ho | m f' Hc Ho | m o res Hc Ho];
    rewrite Hc in *; rewrite Ho.
  - apply list_elem_of_singleton in He as ->. done.
  - destruct (Hcreate m) as (_ & Hnr & _).
    apply elem_of_cons in He as [-> | He]; [done |].
    apply list_elem_of_singleton in He as ->. cbn in Hres.
    injection Hres as ->. unfold count_calls. cbn. by rewrite Hnr.
  - apply elem_of_cons in He as [-> | He]; [done |].
    apply elem_of_cons in He as [-> | He]; [done |].
    apply list_elem_of_singleton in He as ->. cbn in Hk. congruence.
Qed.

Lemma count_calls_app p es1 es2 :
  count_calls p (es1 ++ es2) = count_calls p es1 + count_calls p es2.
Proof. unfold count_calls. by rewrite List.filter_app, length_app. Qed.

Lemma provisions_no_delete u r :
  well_kinded u -> provisions u r -> count_calls is_delete (calls r) = 0.
Proof.
  intros (Hcreate & _ & _ & Hrd) Hp.
  destruct Hp as [f' Hc Ho | m f' Hc Ho | m o res Hc Ho]; rewrite Hc;
    unfold count_calls; cbn; [done | |];
    destruct (Hcreate m) as (_ & _ & ->); [done |].
  by rewrite Hrd.
Qed.

Lemma provisions_all_no_delete us rs :
  Forall well_kinded us -> Forall2 provisions us rs ->
  count_calls is_delete (concat (map calls rs)) = 0.
Proof.
  intros Hus Hrs. induction Hrs as [|u r us rs Hp _ IH]; [done |].
  apply Forall_cons in Hus as [Hu Hus]. cbn [map concat].
  rewrite count_calls_app, (provisions_no_delete u r Hu Hp). by apply IH.
Qed.

Lemma provisions_completes u r : provisions u r -> completes u r.
Proof.
  intros [f Hc Ho | m f Hc Ho | m o res Hc Ho] Hff; unfold fault_free in Hff;
    rewrite Hc in *.
  - by apply Forall_cons in Hff as [Hf _].
  - apply Forall_cons in Hff as [_ Hff].
    by apply Forall_cons in Hff as [Hf _].
  - by exists m.
Qed.

Lemma verifies_all_ran ks rs : Forall2 verifies ks rs -> Forall ran rs.
Proof.
  induction 1 as [|k r ks rs Hv _ IH]; constructor; [| done].
  by eapply verifies_ran.
Qed.

End ProtocolFacts.

Section SessionFacts.
Import Py Pytest Protocol.
Context {W : Type} `{World W}.

Lemma run_classes_single (c : test_class W) w :
  fst (run_classes [c] w) = [fst (run_class c w)].
Proof. cbn [run_classes]. by destruct (run_class c w). Qed.

Lemma run_classes_pair (c1 c2 : test_class W) w :
  fst (run_classes [c1; c2] w) =
  [fst (run_class c1 w); fst (run_class c2 (snd (run_class c1 w)))].
Proof.
  cbn [run_classes]. destruct (run_class c1 w) as [r1 w1]. cbn [fst snd].
  by destruct (run_class c2 w1).
Qed.

(** The import of every harness module is one [load_kube_config]. *)
Lemma import_calls ctx w (ic : list entry) w1 :
  (_ <- do_call (LoadKubeConfig ctx) ;; ret tt) {| world := w; trace := [] |}
  = (Ok tt, {| world := w1; trace := ic |}) ->
  exists v, ic = [{| e_call := LoadKubeConfig ctx; e_result := Ok v |}].
Proof.
  unfold bind, do_call. cbn [world trace].
  destruct (perform _ w) as [[v|f] w']; cbn; [| done].
  intros [= <- <-]. eauto.
Qed.

Lemma import_fault_calls ctx w f (ic : list entry) w1 :
  (_ <- do_call (LoadKubeConfig ctx) ;; ret tt) {| world := w; trace := [] |}
  = (Raise f, {| world := w1; trace := ic |}) ->
  ic = [{| e_call := LoadKubeConfig ctx; e_result := Raise f |}].
Proof.
  unfold bind, do_call. cbn [world trace].
  destruct (perform _ w) as [[v|f'] w']; cbn; [done |].
  by intros [= <- <- <-].
Qed.

Lemma smoke04_session w :
  collected (fst (run_module Smoke04.test_smoke w)) = true ->
  exists v reports td res,
    fst (run_module Smoke04.test_smoke w) =
    Ran [{| e_call := LoadKubeConfig (Some "kind-cluster1");
            e_result := Ok v |}]
        [{| reports := reports; teardown := Some td |}] /\
    map nodeid reports =
      ["test_create_namespace"; "test_create_deployment";
       "test_create_service"; "test_create_ingress"] /\
    Forall2 provisions provisioning_order reports /\
    calls td =
      [{| e_call := DeleteNamespace "test-namespace"; e_result := res |}].
Proof.
  intros Hc. apply run_module_collected in Hc as (ic & w1 & Hi & ->).
  apply import_calls in Hi as [v ->].
  cbn [Smoke04.test_smoke m_classes]. rewrite run_classes_single.
  rewrite run_class_unskipped; [| by left | done | done].
  cbn [Smoke04.TestSmoke c_tests c_teardown].
  edestruct (teardown_report Smoke04.teardown_class) as [res Hres];
    [reflexivity |].
  eexists v, _, _, res. split; [reflexivity |]. split; [| split].
  - by rewrite run_tests_nodeids.
  - apply run_tests_Forall2. repeat constructor; cbn [snd]; intros.
    + apply smoke04_namespace.
    + apply smoke04_deployment.
    + apply smoke04_service.
    + apply smoke04_ingress.
  - apply Hres.
Qed.

Lemma smoke03_session w :
  collected (fst (run_module Smoke03.test_smoke w)) = true ->
  exists v reports td res,
    fst (run_module Smoke03.test_smoke w) =
    Ran [{| e_call := LoadKubeConfig (Some "kind-cluster1");
            e_result := Ok v |}]
        [{| reports := reports; teardown := Some td |}] /\
    map nodeid reports =
      ["test_create_namespace"; "test_create_deployment"] /\
    Forall2 provisions [namespace_unit; deployment_unit] reports /\
    calls td =
      [{| e_call := DeleteNamespace "test-namespace"; e_result := res |}].
Proof.
  intros Hc. apply run_module_collected in Hc as (ic & w1 & Hi & ->).
  apply import_calls in Hi as [v ->].
  cbn [Smoke03.test_smoke m_classes]. rewrite run_classes_single.
  rewrite run_class_unskipped; [| by left | done | done].
  cbn [Smoke03.TestSmoke c_tests c_teardown].
  edestruct (teardown_report Smoke03.teardown_class) as [res Hres];
    [reflexivity |].
  eexists v, _, _, res. split; [reflexivity |]. split; [| split].
  - by rewrite run_tests_nodeids.
  - apply run_tests_Forall2. repeat constructor; cbn [snd]; intros.
    + apply smoke03_namespace.
    + apply smoke03_deployment.
  - apply Hres.
Qed.

Lemma gfk_session w :
  collected (fst (run_module SmokeGfk.test_smoke w)) = true ->
  exists v reports,
    fst (run_module SmokeGfk.test_smoke w) =
    Ran [{| e_call := LoadKubeConfig (Some "kind-cluster1");
            e_result := Ok v |}]
        [{| reports := reports; teardown := None |}] /\
    map nodeid reports = ["test_create_namespace"] /\
    Forall2 provisions [namespace_unit] reports.
Proof.
  intros Hc. apply run_module_collected in Hc as (ic & w1 & Hi & ->).
  apply import_calls in Hi as [v ->].
  cbn [SmokeGfk.test_smoke m_classes]. rewrite run_classes_single.
  rewrite run_class_unskipped; [| by left | done | done].
  cbn [SmokeGfk.TestSmoke c_tests c_teardown].
  eexists v, _. split; [reflexivity |]. split.
  - by rewrite run_tests_nodeids.
  - apply run_tests_Forall2. repeat constructor; cbn [snd]; intros.
    apply gfk_namespace.
Qed.

(** Verification-only mode before the conditional group was added
    ([06/tests/test_gitops.py]): four reads, nothing created or deleted. *)
Lemma gitops06_session w :
  collected (fst (run_module GitOps06.test_gitops w)) = true ->
  exists reports,
    results (fst (run_module GitOps06.test_gitops w)) =
      [{| reports := reports; teardown := None |}] /\
    Forall2 verifies unconditional_group reports.
Proof.
  intros Hc. apply run_module_collected in Hc as (ic & w1 & Hi & ->).
  cbn [GitOps06.test_gitops m_classes results]. rewrite run_classes_single.
  rewrite run_class_unskipped; [| by left | done | done].
  cbn [GitOps06.TestGitOps c_tests c_teardown].
  eexists. split; [reflexivity |].
  apply run_tests_Forall2. repeat constructor; cbn [snd]; intros.
  - apply gitops06_namespace.
  - apply gitops06_deployment.
  - apply gitops06_service.
  - apply gitops06_ingress.
Qed.

Lemma skip_condition_denylist opt :
  GitOps09.skip_condition opt = true <-> Conftest08.context opt ∈ denylist.
Proof.
  unfold GitOps09.skip_condition, denylist, in_tuple.
  destruct (Conftest08.context opt) as [c|]; cbn [existsb eq_str].
  - rewrite !orb_true_iff, !String.eqb_eq, !elem_of_cons. split.
    + intros [<- | [<- | F]]; [by left | by right; left | done].
    + intros [[= ->] | [[= ->] | F]]; [by left | by right; left |].
      by apply elem_of_nil in F.
  - split; [done |]. rewrite !elem_of_cons. intros [F | [F | F]]; try done.
    by apply elem_of_nil in F.
Qed.

Lemma mark_all_skipped reason (ts : list (string * M W unit)) :
  Forall (fun r => outcome_of r = Skipped reason /\ calls r = [])
    (mark_all (Skipped reason) ts).
Proof. unfold mark_all. apply Forall_map. by apply Forall_true. Qed.

Lemma mark_all_nodeids o (ts : list (string * M W unit)) :
  map nodeid (mark_all o ts) = map fst ts.
Proof. unfold mark_all. rewrite map_map. by apply map_ext. Qed.

Lemma gitops09_session opt w :
  collected (fst (run_module (GitOps09.test_gitops opt) w)) = true ->
  exists v uncond cond,
    fst (run_module (GitOps09.test_gitops opt) w) =
    Ran [{| e_call := LoadKubeConfig (Conftest08.context opt);
            e_result := Ok v |}]
        [{| reports := uncond; teardown := None |};
         {| reports := cond; teardown := None |}] /\
    map nodeid uncond =
      ["test_flask_application_namespace";
       "test_flask_application_deployment";
       "test_flask_application_service";
       "test_flask_application_ingress"] /\
    Forall2 verifies unconditional_group uncond /\
    map nodeid cond =
      ["test_flask_internal_application_deployment";
       "test_flask_internal_application_service";
       "test_flask_service2_application_namespace";
       "test_flask_service2_application_deployment";
       "test_flask_service2_application_service"] /\
    if GitOps09.skip_condition opt
    then Forall skipped cond
    else Forall2 verifies conditional_group cond.
Proof.
  intros Hc. apply run_module_collected in Hc as (ic & w1 & Hi & ->).
  apply import_calls in Hi as [v ->].
  cbn [GitOps09.test_gitops m_classes]. rewrite run_classes_pair.
  rewrite run_class_unskipped; [| by left | done | done].
  cbn [GitOps09.TestGitOps c_tests c_teardown].
  set (w2 := snd (run_class GitOps09.TestGitOps w1)). clearbody w2.
  destruct (GitOps09.skip_condition opt) eqn:Hskip.
  - rewrite (run_class_skipped _ w2 "only deployed on development")
      by (cbn [GitOps09.TestGitOpsConditional c_skipif]; by rewrite Hskip).
    cbn [fst GitOps09.TestGitOpsConditional c_tests].
    eexists v, _, _. split; [reflexivity |].
    split; [by rewrite run_tests_nodeids |]. split; [| split].
    + apply run_tests_Forall2. repeat constructor; cbn [snd]; intros.
      * apply gitops09_namespace.
      * apply gitops09_deployment.
      * apply gitops09_service.
      * apply gitops09_ingress.
    + by rewrite mark_all_nodeids.
    + apply mark_all_skipped.
  - rewrite run_class_unskipped;
      [| right; eexists; cbn [GitOps09.TestGitOpsConditional c_skipif];
         by rewrite Hskip | done | done].
    cbn [GitOps09.TestGitOpsConditional c_tests c_teardown].
    eexists v, _, _. split; [reflexivity |].
    split; [by rewrite run_tests_nodeids |]. split; [| split].
    + apply run_tests_Forall2. repeat constructor; cbn [snd]; intros.
      * apply gitops09_namespace.
      * apply gitops09_deployment.
      * apply gitops09_service.
      * apply gitops09_ingress.
    + by rewrite run_tests_nodeids.
    + apply run_tests_Forall2. repeat constructor; cbn [snd]; intros.
      * apply gitops09_internal_deployment.
      * apply gitops09_internal_service.
      * apply gitops09_service2_namespace.
      * apply gitops09_service2_deployment.
      * apply gitops09_service2_service.
Qed.

End SessionFacts.

Section HarnessTheorems.
Import Py Pytest Protocol.
Context {W : Type} `{World W}.

(** C4. In provisioning mode ([04/tests/test_smoke.py]) the units run
    in the order namespace, deployment, service, ingress, and each
    follows the protocol: load the fixture, one create call, one read
    call for the same resource, then the assertions on the returned
    name ([test-namespace], resp. [flask]) and, for the namespaced
    kinds, on the returned namespace ([test-namespace]).  A unit in
    which no call faults makes all three calls. *)
Theorem provisioning_follows_protocol (w : W) :
  collected (fst (run_module Smoke04.test_smoke w)) = true ->
  exists reports td,
    results (fst (run_module Smoke04.test_smoke w)) =
      [{| reports := reports; teardown := td |}] /\
    map nodeid reports =
      ["test_create_namespace"; "test_create_deployment";
       "test_create_service"; "test_create_ingress"] /\
    Forall2 provisions provisioning_order reports /\
    Forall2 completes provisioning_order reports.
Proof.
  intros Hc.
  destruct (smoke04_session w Hc) as (v & reports & td & res & -> & ? & Hp & _).
  exists reports, (Some td). repeat split; trivial.
  eapply Forall2_impl; [exact Hp |]. apply provisions_completes.
Qed.

Lemma provisions_all_contained us rs :
  Forall well_kinded us -> Forall2 provisions us rs ->
  Forall (fun r => ran r /\ create_fault_contained r) rs.
Proof.
  intros Hus Hrs. induction Hrs as [|u r us rs Hp _ IH]; [constructor |].
  apply Forall_cons in Hus as [Hu Hus]. constructor; [| by apply IH].
  split; [by eapply provisions_ran |].
  by eapply provisions_contains_create_fault.
Qed.

(** C5. In each provisioning module, a create call that faults is the
    last call of its test unit (no read follows), its fault is the
    outcome of that unit, and every unit of the module is run
    nevertheless. *)
Theorem create_fault_fails_its_unit_only (m : test_module W) (w : W) :
  m ∈ [Smoke03.test_smoke; Smoke04.test_smoke; SmokeGfk.test_smoke] ->
  collected (fst (run_module m w)) = true ->
  exists reports td,
    results (fst (run_module m w)) =
      [{| reports := reports; teardown := td |}] /\
    map nodeid reports =
      flat_map (fun c => map fst (c_tests c)) (m_classes m) /\
    Forall (fun r => ran r /\ create_fault_contained r) reports.
Proof.
  intros Hm Hc.
  pose proof provisioning_order_well_kinded as Hk.
  unfold provisioning_order in Hk.
  apply Forall_cons in Hk as [Hns Hk]. apply Forall_cons in Hk as [Hdep _].
  rewrite !elem_of_cons in Hm. destruct Hm as [-> | [-> | [-> | Hm]]].
  - destruct (smoke03_session w Hc) as (v & rs & td & res & -> & ? & ? & _).
    exists rs, (Some td). repeat split; trivial.
    eapply provisions_all_contained; [| eassumption]. by repeat constructor.
  - destruct (smoke04_session w Hc) as (v & rs & td & res & -> & ? & ? & _).
    exists rs, (Some td). repeat split; trivial.
    eapply provisions_all_contained; [| eassumption].
    apply provisioning_order_well_kinded.
  - destruct (gfk_session w Hc) as (v & rs & -> & ? & ?).
    exists rs, None. repeat split; trivial.
    eapply provisions_all_contained; [| eassumption]. by repeat constructor.
  - by apply elem_of_nil in Hm.
Qed.

(** The variants whose [teardown_class] is a method of the class
    ([03], [04]): the session makes exactly one delete call, for
    [test-namespace], and it is the last call of the session. *)
Lemma smoke_teardown_deletes_once (m : test_module W) (w : W) :
  m ∈ [Smoke03.test_smoke; Smoke04.test_smoke] ->
  collected (fst (run_module m w)) = true ->
  count_calls is_delete (session_calls (fst (run_module m w))) = 1 /\
  exists before res,
    session_calls (fst (run_module m w)) =
    before ++
    [{| e_call := DeleteNamespace "test-namespace"; e_result := res |}].
Proof.
  intros Hm Hc.
  pose proof provisioning_order_well_kinded as Hk.
  assert (Forall well_kinded [namespace_unit; deployment_unit]) as Hk2.
  { unfold provisioning_order in Hk.
    apply Forall_cons in Hk as [Hns Hk].
    apply Forall_cons in Hk as [Hdep _]. by repeat constructor. }
  assert (forall v rs td res,
             count_calls is_delete (concat (map calls rs)) = 0 ->
             calls td =
               [{| e_call := DeleteNamespace "test-namespace";
                   e_result := res |}] ->
             let s := Ran [{| e_call := LoadKubeConfig (Some "kind-cluster1");
                              e_result := Ok v |}]
                          [{| reports := rs; teardown := Some td |}] in
             count_calls is_delete (session_calls s) = 1 /\
             exists before res,
               session_calls s =
               before ++
               [{| e_call := DeleteNamespace "test-namespace";
                   e_result := res |}]) as Hgen.
  { intros v rs td res Hn Htd s. subst s.
    cbn [session_calls map concat]. unfold class_calls.
    cbn [reports teardown]. rewrite Htd, app_nil_r. split.
    - by rewrite !count_calls_app, Hn.
    - eexists _, res. by rewrite app_assoc. }
  rewrite !elem_of_cons in Hm. destruct Hm as [-> | [-> | Hm]].
  - destruct (smoke03_session w Hc)
      as (v & rs & td & res & -> & _ & Hp & Htd).
    apply (Hgen v rs td res); [| done].
    by apply (provisions_all_no_delete _ _ Hk2).
  - destruct (smoke04_session w Hc)
      as (v & rs & td & res & -> & _ & Hp & Htd).
    apply (Hgen v rs td res); [| done].
    by apply (provisions_all_no_delete _ _ Hk).
  - by apply elem_of_nil in Hm.
Qed.

(** C7, on the code. In [gitops-flask-kubernetes/tests/test_smoke.py]
    the class has no teardown hook and no delete call is ever made:
    whatever the world answers, the session never calls
    [delete_namespace]. *)
Theorem gfk_teardown_never_runs (w : W) :
  Forall (fun c => teardown c = None)
    (results (fst (run_module SmokeGfk.test_smoke w))) /\
  count_calls is_delete
    (session_calls (fst (run_module SmokeGfk.test_smoke w))) = 0.
Proof.
  destruct (collected (fst (run_module SmokeGfk.test_smoke w))) eqn:Hc.
  - destruct (gfk_session w Hc) as (v & rs & -> & _ & Hp).
    split; [by repeat constructor |].
    cbn [session_calls map concat]. unfold class_calls.
    cbn [reports teardown]. rewrite !app_nil_r, count_calls_app.
    rewrite (provisions_all_no_delete [namespace_unit] rs); [done | | done].
    pose proof provisioning_order_well_kinded as Hk.
    apply Forall_cons in Hk as [Hns _]. by repeat constructor.
  - apply run_module_uncollected in Hc as (f & ic & w1 & Hi & ->).
    apply import_fault_calls in Hi as ->. by split.
Qed.

(** C3. In verification-only mode with [--context kind-cluster2], the
    five tests of the conditional group are each reported as skipped
    and make no call, while the four tests of the unconditional group
    each run: one read, then the assertions. *)
Theorem conditional_group_skipped_on_cluster2 (endpoint : option string)
    (w : W) :
  collected
    (fst (run_module
            (GitOps09.test_gitops
               {| Conftest08.endpoint_opt := endpoint;
                  Conftest08.context := Some "kind-cluster2" |}) w))
  = true ->
  exists uncond cond,
    results
      (fst (run_module
              (GitOps09.test_gitops
                 {| Conftest08.endpoint_opt := endpoint;
                    Conftest08.context := Some "kind-cluster2" |}) w))
    = [{| reports := uncond; teardown := None |};
       {| reports := cond; teardown := None |}] /\
    map nodeid cond =
      ["test_flask_internal_application_deployment";
       "test_flask_internal_application_service";
       "test_flask_service2_application_namespace";
       "test_flask_service2_application_deployment";
       "test_flask_service2_application_service"] /\
    Forall skipped cond /\
    map nodeid uncond =
      ["test_flask_application_namespace";
       "test_flask_application_deployment";
       "test_flask_application_service";
       "test_flask_application_ingress"] /\
    Forall2 verifies unconditional_group uncond /\
    Forall ran uncond.
Proof.
  intros Hc.
  destruct (gitops09_session _ w Hc)
    as (v & uncond & cond & -> & Hnu & Hu & Hn & Hcond).
  exists uncond, cond. repeat split; trivial.
  by eapply verifies_all_ran.
Qed.

(** C10. The conditional group is skipped exactly on the contexts
    [kind-cluster2] and [kind-cluster3]: there its five tests are
    skipped without a call; on every other context, unset included,
    each of the five runs its read and assertions.  The unconditional
    group runs on every context. *)
Theorem denylist_is_exactly_cluster2_and_cluster3
    (opt : Conftest08.options) (w : W) :
  collected (fst (run_module (GitOps09.test_gitops opt) w)) = true ->
  exists uncond cond,
    results (fst (run_module (GitOps09.test_gitops opt) w))
    = [{| reports := uncond; teardown := None |};
       {| reports := cond; teardown := None |}] /\
    map nodeid cond =
      ["test_flask_internal_application_deployment";
       "test_flask_internal_application_service";
       "test_flask_service2_application_namespace";
       "test_flask_service2_application_deployment";
       "test_flask_service2_application_service"] /\
    map nodeid uncond =
      ["test_flask_application_namespace";
       "test_flask_application_deployment";
       "test_flask_application_service";
       "test_flask_application_ingress"] /\
    Forall2 verifies unconditional_group uncond /\
    Forall ran uncond /\
    ((Conftest08.context opt = Some "kind-cluster2" \/
      Conftest08.context opt = Some "kind-cluster3") /\
     Forall skipped cond
     \/
     (Conftest08.context opt <> Some "kind-cluster2" /\
      Conftest08.context opt <> Some "kind-cluster3") /\
     Forall2 verifies conditional_group cond /\
     Forall ran cond).
Proof.
  intros Hc.
  destruct (gitops09_session _ w Hc)
    as (v & uncond & cond & -> & Hnu & Hu & Hn & Hcond).
  pose proof verifies_all_ran as Hran.
  exists uncond, cond. repeat split; eauto.
  pose proof (skip_condition_denylist opt) as Hd. unfold denylist in Hd.
  rewrite !elem_of_cons in Hd.
  destruct (GitOps09.skip_condition opt).
  - left. split; [| done].
    destruct Hd as [[? | [? | F]] _]; [done | by left | by right |].
    by apply elem_of_nil in F.
  - right. repeat split; eauto; intros E; destruct Hd as [_ Hd];
      (assert (false = true) by (apply Hd; auto)); done.
Qed.

(** C9. Each end-to-end check makes exactly one GET, to [http://E/]
    resp. [http://E/cluster], whatever the answer, and its outcome is
    decided by the answer to that one request: a fault is the outcome,
    with no further call; otherwise the body must contain [hello],
    resp. (for a body of ASCII text) match the cluster-identity
    pattern. *)
Theorem end_to_end_single_attempt (E : string) (w : W) :
  single_get ("http://" +:+ E +:+ "/") index_verdict
    (fst (perform (RequestsGet ("http://" +:+ E +:+ "/")) w))
    (fst (run_test "test_index" (EndToEnd03.test_index (Some E)) w)) /\
  single_get ("http://" +:+ E +:+ "/") index_verdict
    (fst (perform (RequestsGet ("http://" +:+ E +:+ "/")) w))
    (fst (run_test "test_index" (EndToEnd09.test_index (Some E)) w)) /\
  single_get_on ascii_answer ("http://" +:+ E +:+ "/cluster")
    cluster_verdict
    (fst (perform (RequestsGet ("http://" +:+ E +:+ "/cluster")) w))
    (fst (run_test "test_cluster" (EndToEnd09.test_cluster (Some E)) w)).
Proof.
  unfold single_get, single_get_on, ascii_answer, EndToEnd03.test_index,
    EndToEnd09.test_index, EndToEnd09.test_cluster, run_test, bind, do_call,
    format_value, decode.
  cbn [world trace].
  split; [| split].
  - destruct (perform _ w) as [[[|doc|md|sc content]|f] w'];
      cbn -[Text.contains]; try (split; reflexivity).
    destruct (Text.contains "hello" content); split; reflexivity.
  - destruct (perform _ w) as [[[|doc|md|sc content]|f] w'];
      cbn -[Text.contains]; try (split; reflexivity).
    destruct (Text.contains "hello" content); split; reflexivity.
  - destruct (perform _ w) as [[[|doc|md|sc content]|f] w'];
      cbn -[Re.re_match Re.all_chars]; try (split; reflexivity).
    destruct (Re.all_chars is_ascii content) eqn:Hascii;
      cbn -[Re.re_match].
    + destruct (Re.re_match Re.cluster_pattern content); split; reflexivity.
    + split; [reflexivity | discriminate].
Qed.

End HarnessTheorems.

(** ** The harness on concrete worlds *)

Section Runs.
Import Py Pytest Protocol.

Lemma provisioning_follows_protocol_witness :
  collected (fst (run_module Smoke04.test_smoke Sim.fresh)) = true /\
  exists reports td,
    results (fst (run_module Smoke04.test_smoke Sim.fresh)) =
      [{| reports := reports; teardown := td |}] /\
    map nodeid reports =
      ["test_create_namespace"; "test_create_deployment";
       "test_create_service"; "test_create_ingress"] /\
    Forall2 provisions provisioning_order reports /\
    Forall2 completes provisioning_order reports.
Proof.
  split; [reflexivity |].
  apply (provisioning_follows_protocol Sim.fresh). reflexivity.
Defined.

(** On a fresh cluster with the fixtures in place every unit passes. *)
Example provisioning_fresh_cluster :
  map outcome_of
    (concat (map reports
               (results (fst (run_module Smoke04.test_smoke Sim.fresh)))))
  = [Passed; Passed; Passed; Passed].
Proof. reflexivity. Qed.

Lemma create_fault_fails_its_unit_only_witness :
  Smoke04.test_smoke
    ∈ [Smoke03.test_smoke; Smoke04.test_smoke; SmokeGfk.test_smoke] /\
  collected (fst (run_module Smoke04.test_smoke Sim.leftover)) = true /\
  exists reports td,
    results (fst (run_module Smoke04.test_smoke Sim.leftover)) =
      [{| reports := reports; teardown := td |}] /\
    map nodeid reports =
      flat_map (fun c => map fst (c_tests c))
        (m_classes (Smoke04.test_smoke (W := Sim.sim))) /\
    Forall (fun r => ran r /\ create_fault_contained r) reports.
Proof.
  assert (Smoke04.test_smoke (W := Sim.sim)
            ∈ [Smoke03.test_smoke; Smoke04.test_smoke; SmokeGfk.test_smoke])
    as Hm by (apply list_elem_of_further, list_elem_of_here).
  split; [exact Hm |]. split; [reflexivity |].
  apply (create_fault_fails_its_unit_only Smoke04.test_smoke Sim.leftover);
    [exact Hm | reflexivity].
Defined.

(** A second create of an existing namespace: the API answers 409, the
    unit fails on it without reading back, and the later units and the
    teardown run as usual. *)
Example duplicate_namespace_create :
  map (fun r => (outcome_of r, map e_call (calls r)))
    (concat (map reports
               (results (fst (run_module Smoke04.test_smoke Sim.leftover)))))
  = [(Failed (ApiException 409),
      [LoadYaml "namespace.yaml";
       CreateNamespace
         (PyYaml (Sim.manifest "Namespace" "test-namespace" None))]);
     (Passed,
      [LoadYaml "deployment.yaml";
       CreateNamespacedDeployment
         (PyYaml (Sim.manifest "Deployment" "flask" None)) "test-namespace";
       ReadNamespacedDeployment "flask" "test-namespace"]);
     (Passed,
      [LoadYaml "service.yaml";
       CreateNamespacedService
         (PyYaml (Sim.manifest "Service" "flask" None)) "test-namespace";
       ReadNamespacedService "flask" "test-namespace"]);
     (Passed,
      [LoadYaml "ingress.yaml";
       CreateNamespacedIngress
         (PyYaml (Sim.manifest "Ingress" "flask" None)) "test-namespace";
       ReadNamespacedIngress "flask" "test-namespace"])].
Proof. reflexivity. Qed.

(** The [03] and [04] sessions on a fresh cluster end with the delete
    call and leave [test-namespace] terminating; the
    [gitops-flask-kubernetes] session makes no delete call and leaves the
    namespace it created active. *)
Example teardown_on_fresh_cluster :
  Sim.namespaces (snd (run_module Smoke03.test_smoke Sim.fresh))
    !! "test-namespace" = Some Sim.Terminating /\
  Sim.namespaces (snd (run_module Smoke04.test_smoke Sim.fresh))
    !! "test-namespace" = Some Sim.Terminating /\
  Sim.namespaces (snd (run_module SmokeGfk.test_smoke Sim.fresh))
    !! "test-namespace" = Some Sim.Active /\
  map e_call (session_calls (fst (run_module SmokeGfk.test_smoke Sim.fresh)))
  = [LoadKubeConfig (Some "kind-cluster1");
     LoadYaml "namespace.yaml";
     CreateNamespace
       (PyYaml (Sim.manifest "Namespace" "test-namespace" None));
     ReadNamespace "test-namespace"].
Proof. repeat split; reflexivity. Qed.

Lemma smoke_teardown_deletes_once_witness :
  count_calls is_delete
    (session_calls (fst (run_module Smoke04.test_smoke Sim.fresh))) = 1 /\
  exists before res,
    session_calls (fst (run_module Smoke04.test_smoke Sim.fresh)) =
    before ++
    [{| e_call := DeleteNamespace "test-namespace"; e_result := res |}].
Proof.
  apply (smoke_teardown_deletes_once Smoke04.test_smoke Sim.fresh);
    [apply list_elem_of_further, list_elem_of_here | reflexivity].
Defined.

Lemma conditional_group_skipped_on_cluster2_witness :
  collected
    (fst (run_module
            (GitOps09.test_gitops
               {| Conftest08.endpoint_opt := Some "localhost:8080";
                  Conftest08.context := Some "kind-cluster2" |})
            Sim.deployed))
  = true /\
  exists uncond cond,
    results
      (fst (run_module
              (GitOps09.test_gitops
                 {| Conftest08.endpoint_opt := Some "localhost:8080";
                    Conftest08.context := Some "kind-cluster2" |})
              Sim.deployed))
    = [{| reports := uncond; teardown := None |};
       {| reports := cond; teardown := None |}] /\
    map nodeid cond =
      ["test_flask_internal_application_deployment";
       "test_flask_internal_application_service";
       "test_flask_service2_application_namespace";
       "test_flask_service2_application_deployment";
       "test_flask_service2_application_service"] /\
    Forall skipped cond /\
    map nodeid uncond =
      ["test_flask_application_namespace";
       "test_flask_application_deployment";
       "test_flask_application_service";
       "test_flask_application_ingress"] /\
    Forall2 verifies unconditional_group uncond /\
    Forall ran uncond.
Proof.
  split; [reflexivity |].
  apply (conditional_group_skipped_on_cluster2
           (Some "localhost:8080") Sim.deployed).
  reflexivity.
Defined.

(** On a cluster without the development-only resources: skipped on
    [kind-cluster2], run (and failed with 404) on [kind-cluster1]. *)
Example conditional_group_outcomes :
  map outcome_of
    (concat (map reports
       (results
          (fst (run_module
                  (GitOps09.test_gitops
                     {| Conftest08.endpoint_opt := None;
                        Conftest08.context := Some "kind-cluster2" |})
                  Sim.deployed)))))
  = [Passed; Passed; Passed; Passed;
     Skipped "only deployed on development";
     Skipped "only deployed on development";
     Skipped "only deployed on development";
     Skipped "only deployed on development";
     Skipped "only deployed on development"] /\
  map outcome_of
    (concat (map reports
       (results
          (fst (run_module
                  (GitOps09.test_gitops
                     {| Conftest08.endpoint_opt := None;
                        Conftest08.context := Some "kind-cluster1" |})
                  Sim.deployed)))))
  = [Passed; Passed; Passed; Passed;
     Failed (ApiException 404); Failed (ApiException 404);
     Failed (ApiException 404); Failed (ApiException 404);
     Failed (ApiException 404)].
Proof. split; reflexivity. Qed.

Lemma denylist_is_exactly_cluster2_and_cluster3_witness :
  collected
    (fst (run_module
            (GitOps09.test_gitops
               {| Conftest08.endpoint_opt := None;
                  Conftest08.context := None |})
            Sim.deployed))
  = true /\
  exists uncond cond,
    results
      (fst (run_module
              (GitOps09.test_gitops
                 {| Conftest08.endpoint_opt := None;
                    Conftest08.context := None |})
              Sim.deployed))
    = [{| reports := uncond; teardown := None |};
       {| reports := cond; teardown := None |}] /\
    map nodeid cond =
      ["test_flask_internal_application_deployment";
       "test_flask_internal_application_service";
       "test_flask_service2_application_namespace";
       "test_flask_service2_application_deployment";
       "test_flask_service2_application_service"] /\
    map nodeid uncond =
      ["test_flask_application_namespace";
       "test_flask_application_deployment";
       "test_flask_application_service";
       "test_flask_application_ingress"] /\
    Forall2 verifies unconditional_group uncond /\
    Forall ran uncond /\
    (((None : option string) = Some "kind-cluster2" \/
      (None : option string) = Some "kind-cluster3") /\
     Forall skipped cond
     \/
     ((None : option string) <> Some "kind-cluster2" /\
      (None : option string) <> Some "kind-cluster3") /\
     Forall2 verifies conditional_group cond /\
     Forall ran cond).
Proof.
  split; [reflexivity |].
  apply (denylist_is_exactly_cluster2_and_cluster3
           {| Conftest08.endpoint_opt := None; Conftest08.context := None |}
           Sim.deployed).
  reflexivity.
Defined.

(** The end-to-end checks against the deployed responder, and against
    an endpoint where nothing listens. *)
Example end_to_end_outcomes :
  map (fun t => outcome_of (fst (run_test "check" t Sim.deployed)))
    [EndToEnd03.test_index (Some "localhost:8080");
     EndToEnd09.test_index (Some "localhost:8080");
     EndToEnd09.test_cluster (Some "localhost:8080")]
  = [Passed; Passed; Passed] /\
  map (fun t => (fst (run_test "check" t Sim.offline)))
    [EndToEnd09.test_index (Some "localhost:8080");
     EndToEnd09.test_cluster (Some "localhost:8080")]
  = [{| nodeid := "check"; outcome_of := Failed ConnectionError;
        calls := [{| e_call := RequestsGet "http://localhost:8080/";
                     e_result := Raise ConnectionError |}] |};
     {| nodeid := "check"; outcome_of := Failed ConnectionError;
        calls := [{| e_call := RequestsGet "http://localhost:8080/cluster";
                     e_result := Raise ConnectionError |}] |}].
Proof. split; reflexivity. Qed.

End Runs.

(** * Further properties of the responder *)

Section ResponderFacts.
Import App.

(** The responses are a function of the two variables [NAME] and
    [CLUSTER] as they were at start-up: two processes started in
    environments that agree on these two answer every request alike,
    whatever else their environments hold and whatever happened since. *)
Theorem responder_reads_only_name_and_cluster
    (env env' : gmap string string) (evs evs' : list event) (path : string) :
  env !! "NAME" = env' !! "NAME" ->
  env !! "CLUSTER" = env' !! "CLUSTER" ->
  get_after env evs path = get_after env' evs' path.
Proof.
  intros Hn Hc. rewrite !get_after_boot. apply get_reads_globals.
  - pose proof (boot_globals env) as (-> & _).
    pose proof (boot_globals env') as (-> & _). by rewrite Hn.
  - pose proof (boot_globals env) as (_ & -> & _).
    pose proof (boot_globals env') as (_ & -> & _). by rewrite Hc.
Qed.

Lemma responder_reads_only_name_and_cluster_witness :
  (<["NAME" := "a"]> ∅ : gmap string string) !! "NAME"
  = (<["HOME" := "/root"]> (<["NAME" := "a"]> ∅) : gmap string string)
      !! "NAME" /\
  (<["NAME" := "a"]> ∅ : gmap string string) !! "CLUSTER"
  = (<["HOME" := "/root"]> (<["NAME" := "a"]> ∅) : gmap string string)
      !! "CLUSTER" /\
  get_after (<["NAME" := "a"]> ∅) [] "/cluster"
  = get_after (<["HOME" := "/root"]> (<["NAME" := "a"]> ∅))
      [Get "/"; Unsetenv "NAME"] "/cluster".
Proof.
  split; [reflexivity |]. split; [reflexivity |].
  apply (responder_reads_only_name_and_cluster
           (<["NAME" := "a"]> ∅)
           (<["HOME" := "/root"]> (<["NAME" := "a"]> ∅))
           [] [Get "/"; Unsetenv "NAME"] "/cluster"); reflexivity.
Defined.

End ResponderFacts.

(** * The cluster-identity pattern on the responder's body *)

Section IdentityFacts.
Import App Re.

Lemma is_word_space : is_word " " = false.
Proof. reflexivity. Qed.

(** After a run of word characters, [\w+] followed by the rest of the
    pattern can only stop at the end of the run when a space follows. *)
Lemma plus_match_word_run (n rest : string) (k : string -> bool) :
  n <> "" ->
  all_chars is_word n = true ->
  (forall b s, is_word b = true -> k (String b s) = false) ->
  plus_match is_word (n +:+ String " " rest) k = k (String " " rest).
Proof.
  intros Hne Hall Hk. induction n as [|a n IH]; [done |].
  simpl in Hall. apply andb_true_iff in Hall as [Ha Hn].
  simpl. rewrite Ha. destruct n as [|b n'].
  - reflexivity.
  - rewrite IH by done. simpl in Hn. apply andb_true_iff in Hn as [Hb _].
    simpl. rewrite (Hk b _ Hb). apply orb_false_r.
Qed.

Lemma plus_match_any (s : string) :
  plus_match is_word s (fun _ => true) = starts_with is_word s.
Proof.
  destruct s as [|c s]; [done |]. simpl.
  destruct (is_word c); [apply orb_true_r | done].
Qed.

Lemma lit_match_app (l s : string) (k : string -> bool) :
  lit_match l (l +:+ s) k = k s.
Proof.
  induction l as [|a l IH]; [done |]. simpl. by rewrite Ascii.eqb_refl.
Qed.

Lemma lit_match_cons (a b : ascii) (l s : string) (k : string -> bool) :
  lit_match (String a l) (String b s) k
  = if Ascii.eqb a b then lit_match l s k else false.
Proof. reflexivity. Qed.

(** The pattern applied to [This is n in cluster c], for ASCII [c]. *)
Lemma match_identity_word_name (n c : string) :
  n <> "" ->
  all_chars is_word n = true ->
  all_chars Py.is_ascii c = true ->
  re_match cluster_pattern ("This is " +:+ n +:+ " in cluster " +:+ c)
  = starts_with is_word c.
Proof.
  intros Hne Hall _. unfold re_match, cluster_pattern.
  cbn [rmatch]. rewrite lit_match_app.
  change (" in cluster " +:+ c) with (String " " ("in cluster " +:+ c)).
  rewrite plus_match_word_run; trivial.
  - change (String " " ("in cluster " +:+ c)) with (" in cluster " +:+ c).
    rewrite lit_match_app. apply plus_match_any.
  - intros b s Hb. rewrite lit_match_cons.
    destruct (Ascii.eqb_spec " " b) as [<- | _]; [| done].
    by rewrite is_word_space in Hb.
Qed.

Lemma match_identity_bad_name (n c : string) :
  all_chars Py.is_ascii n = true ->
  starts_with is_word n = false ->
  re_match cluster_pattern ("This is " +:+ n +:+ " in cluster " +:+ c)
  = false.
Proof.
  intros _ Hn. unfold re_match, cluster_pattern.
  cbn [rmatch]. rewrite lit_match_app.
  destruct n as [|a n]; [reflexivity |].
  simpl in Hn. simpl. by rewrite Hn.
Qed.

(** Two identity bodies with word names are equal only for equal
    identities. *)
Lemma word_run_unique (n1 n2 r1 r2 : string) :
  all_chars is_word n1 = true ->
  all_chars is_word n2 = true ->
  n1 +:+ String " " r1 = n2 +:+ String " " r2 ->
  n1 = n2 /\ r1 = r2.
Proof.
  revert n2. induction n1 as [|a n1 IH]; intros [|b n2] H1 H2 E; simpl in *.
  - by injection E.
  - injection E as <- _. apply andb_true_iff in H2 as [H2 _].
    by rewrite is_word_space in H2.
  - injection E as -> _. apply andb_true_iff in H1 as [H1 _].
    by rewrite is_word_space in H1.
  - injection E as -> E. apply andb_true_iff in H1 as [_ H1].
    apply andb_true_iff in H2 as [_ H2].
    destruct (IH n2 H1 H2 E) as [-> ->]. done.
Qed.

(** If [NAME] is set to the empty string, or to ASCII text that begins
    with a character outside [A-Za-z0-9_], the body of [/cluster] does
    not match the cluster-identity pattern, whatever [CLUSTER] is: a
    variable that is set but empty is not replaced by its default. *)
Theorem cluster_pattern_needs_word_name
    (env : gmap string string) (evs : list event) (n : string) :
  env !! "NAME" = Some n ->
  all_chars Py.is_ascii n = true ->
  starts_with is_word n = false ->
  re_match cluster_pattern (body (get_after env evs "/cluster")) = false.
Proof.
  intros Hn Hascii Hw. rewrite cluster_body, Hn. simpl body.
  by apply match_identity_bad_name.
Qed.

Lemma cluster_pattern_needs_word_name_witness :
  (<["NAME" := ""]> ∅ : gmap string string) !! "NAME" = Some "" /\
  all_chars Py.is_ascii "" = true /\
  starts_with is_word "" = false /\
  re_match cluster_pattern
    (body (get_after (<["NAME" := ""]> ∅) [] "/cluster")) = false.
Proof.
  split; [reflexivity |]. split; [reflexivity |]. split; [reflexivity |].
  apply (cluster_pattern_needs_word_name (<["NAME" := ""]> ∅) [] "");
    reflexivity.
Defined.

(** When the service name in effect is a non-empty run of word
    characters and the cluster name in effect is ASCII text, the body
    of [/cluster] matches the cluster-identity pattern exactly when the
    cluster name begins with a word character. *)
Theorem word_name_matches_iff_cluster_starts_with_word
    (env : gmap string string) (evs : list event) :
  default "service1" (env !! "NAME") <> "" ->
  all_chars is_word (default "service1" (env !! "NAME")) = true ->
  all_chars Py.is_ascii (default "cluster1" (env !! "CLUSTER")) = true ->
  re_match cluster_pattern (body (get_after env evs "/cluster"))
  = starts_with is_word (default "cluster1" (env !! "CLUSTER")).
Proof.
  intros Hne Hall Hascii. rewrite cluster_body. simpl body.
  by apply match_identity_word_name.
Qed.

Lemma word_name_matches_iff_cluster_starts_with_word_witness :
  default "service1" ((<["CLUSTER" := "-east"]> ∅ : gmap string string)
                        !! "NAME") <> "" /\
  all_chars is_word
    (default "service1" ((<["CLUSTER" := "-east"]> ∅ : gmap string string)
                           !! "NAME")) = true /\
  all_chars Py.is_ascii
    (default "cluster1" ((<["CLUSTER" := "-east"]> ∅ : gmap string string)
                           !! "CLUSTER")) = true /\
  re_match cluster_pattern
    (body (get_after (<["CLUSTER" := "-east"]> ∅) [] "/cluster"))
  = starts_with is_word
      (default "cluster1" ((<["CLUSTER" := "-east"]> ∅ : gmap string string)
                             !! "CLUSTER")).
Proof.
  split; [discriminate |]. split; [reflexivity |]. split; [reflexivity |].
  apply (word_name_matches_iff_cluster_starts_with_word
           (<["CLUSTER" := "-east"]> ∅) []);
    [discriminate | reflexivity | reflexivity].
Defined.

(** Processes whose service names are runs of word characters answer
    [/cluster] with the same body only if they have the same service
    name and the same cluster name: the identity can be read back from
    the body. *)
Theorem identity_recoverable_from_body
    (env1 env2 : gmap string string) (evs1 evs2 : list event) :
  all_chars is_word (default "service1" (env1 !! "NAME")) = true ->
  all_chars is_word (default "service1" (env2 !! "NAME")) = true ->
  body (get_after env1 evs1 "/cluster")
  = body (get_after env2 evs2 "/cluster") ->
  default "service1" (env1 !! "NAME") = default "service1" (env2 !! "NAME") /\
  default "cluster1" (env1 !! "CLUSTER")
  = default "cluster1" (env2 !! "CLUSTER").
Proof.
  intros H1 H2. rewrite !cluster_body. simpl body. intros E.
  injection E as E. apply word_run_unique in E as [E1 E2]; trivial.
  split; [done |]. by injection E2.
Qed.

Lemma identity_recoverable_from_body_witness :
  all_chars is_word
    (default "service1" ((∅ : gmap string string) !! "NAME")) = true /\
  all_chars is_word
    (default "service1"
       ((<["CLUSTER" := "cluster1"]> ∅ : gmap string string) !! "NAME"))
  = true /\
  body (get_after ∅ [] "/cluster")
  = body (get_after (<["CLUSTER" := "cluster1"]> ∅)
            [Setenv "NAME" "x"] "/cluster") /\
  default "service1" ((∅ : gmap string string) !! "NAME")
  = default "service1"
      ((<["CLUSTER" := "cluster1"]> ∅ : gmap string string) !! "NAME") /\
  default "cluster1" ((∅ : gmap string string) !! "CLUSTER")
  = default "cluster1"
      ((<["CLUSTER" := "cluster1"]> ∅ : gmap string string) !! "CLUSTER").
Proof.
  split; [reflexivity |]. split; [reflexivity |]. split; [reflexivity |].
  apply (identity_recoverable_from_body
           ∅ (<["CLUSTER" := "cluster1"]> ∅) [] [Setenv "NAME" "x"]);
    reflexivity.
Defined.

(** [test_cluster_identity] looks for the default identity inside the
    body, so its verdict depends on the environment in which the test
    process imported the application: it passes whenever the service
    name in effect is [service1] and the cluster name in effect begins
    with [cluster1]. *)
Theorem test_cluster_identity_passes
    (env : gmap string string) (evs : list event) :
  default "service1" (env !! "NAME") = "service1" ->
  Text.prefixb "cluster1" (default "cluster1" (env !! "CLUSTER")) = true ->
  fst (TestApp.test_cluster_identity (snd (run evs (boot env))))
  = Pytest.Passed.
Proof.
  intros Hn Hc. unfold TestApp.test_cluster_identity, TestApp.client_get.
  pose proof (cluster_body env evs) as Hb. unfold get_after in Hb.
  destruct (get "/cluster" _) as [r p']. cbn [fst] in *. subst r.
  cbn [body fst]. rewrite Hn.
  apply prefixb_spec in Hc as [rest ->].
  assert (Text.contains "This is service1 in cluster cluster1"
            ("This is " +:+ "service1" +:+ " in cluster " +:+
             "cluster1" +:+ rest) = true) as ->; [| done].
  apply contains_spec. by exists "", rest.
Qed.

Lemma test_cluster_identity_passes_witness :
  default "service1"
    ((<["CLUSTER" := "cluster10"]> ∅ : gmap string string) !! "NAME")
  = "service1" /\
  Text.prefixb "cluster1"
    (default "cluster1"
       ((<["CLUSTER" := "cluster10"]> ∅ : gmap string string) !! "CLUSTER"))
  = true /\
  fst (TestApp.test_cluster_identity
         (snd (run [] (boot (<["CLUSTER" := "cluster10"]> ∅)))))
  = Pytest.Passed.
Proof.
  split; [reflexivity |]. split; [reflexivity |].
  apply (test_cluster_identity_passes (<["CLUSTER" := "cluster10"]> ∅) []);
    reflexivity.
Defined.

End IdentityFacts.

(** * Further properties of the harness *)

Section HarnessFacts.
Import Py Pytest Protocol.
Context {W : Type} `{World W}.

(** If [load_kube_config] raises while a test module is imported, the
    session of that module is a collection error carrying that fault:
    no test is run and no other call is made. *)
Theorem import_fault_is_collection_error (opt : Conftest08.options)
    (m : test_module W) (ctx : option string) (w : W) (f : fault) :
  (m, ctx) ∈ [(Smoke03.test_smoke, Some "kind-cluster1");
              (Smoke04.test_smoke, Some "kind-cluster1");
              (SmokeGfk.test_smoke, Some "kind-cluster1");
              (GitOps06.test_gitops, Some "kind-cluster1");
              (GitOps09.test_gitops opt, Conftest08.context opt)] ->
  fst (perform (LoadKubeConfig ctx) w) = Raise f ->
  run_module m w =
  (CollectionError f
     [{| e_call := LoadKubeConfig ctx; e_result := Raise f |}],
   snd (perform (LoadKubeConfig ctx) w)).
Proof.
  intros Hm Hf. rewrite !elem_of_cons in Hm.
  destruct Hm as [[= -> ->] | [[= -> ->] | [[= -> ->] | [[= -> ->] |
                 [[= -> ->] | Hm]]]]];
    [.. | by apply elem_of_nil in Hm];
    unfold run_module, m_import;
    cbn [Smoke03.test_smoke Smoke04.test_smoke SmokeGfk.test_smoke
         GitOps06.test_gitops GitOps09.test_gitops];
    unfold Smoke03.import_module, Smoke04.import_module,
      SmokeGfk.import_module, GitOps06.import_module,
      GitOps09.import_module, bind, do_call; cbn [world trace];
    destruct (perform _ w) as [r w']; cbn [fst snd] in *; by subst r.
Qed.

Lemma verifies_all_calls ks rs :
  Forall2 verifies ks rs ->
  map e_call (concat (map calls rs)) = map r_call ks.
Proof.
  induction 1 as [|k r ks rs (res & Hc & _) _ IH]; [done |].
  cbn [map concat]. rewrite map_app, IH, Hc. done.
Qed.

Lemma skipped_all_calls rs :
  Forall skipped rs -> concat (map calls rs) = [].
Proof.
  induction 1 as [|r rs [_ Hc] _ IH]; [done |].
  cbn [map concat]. by rewrite Hc, IH.
Qed.

(** Verification-only mode only reads.  Whatever the cluster answers,
    the session of [09/tests/test_gitops.py] makes the one
    [load_kube_config] and then, if that returned, the four reads of
    the unconditional group followed, unless the group is skipped, by
    the five reads of the conditional group, in this order and nothing
    else; likewise the session of [06/tests/test_gitops.py] with its
    four reads.  A read that fails does not keep the later ones from
    being made. *)
Theorem verification_only_reads (opt : Conftest08.options) (w : W) :
  map e_call
    (session_calls (fst (run_module (GitOps09.test_gitops opt) w)))
  = LoadKubeConfig (Conftest08.context opt) ::
    (if collected (fst (run_module (GitOps09.test_gitops opt) w))
     then
       [ReadNamespace "test-namespace";
        ReadNamespacedDeployment "flask" "test-namespace";
        ReadNamespacedService "flask" "test-namespace";
        ReadNamespacedIngress "flask" "test-namespace"] ++
       (if GitOps09.skip_condition opt then []
        else
          [ReadNamespacedDeployment "flask-internal" "test-namespace";
           ReadNamespacedService "flask-internal" "test-namespace";
           ReadNamespace "service2";
           ReadNamespacedDeployment "flask-different-namespace" "service2";
           ReadNamespacedService "flask-different-namespace" "service2"])
     else []) /\
  map e_call (session_calls (fst (run_module GitOps06.test_gitops w)))
  = LoadKubeConfig (Some "kind-cluster1") ::
    (if collected (fst (run_module GitOps06.test_gitops w))
     then
       [ReadNamespace "test-namespace";
        ReadNamespacedDeployment "flask" "test-namespace";
        ReadNamespacedService "flask" "test-namespace";
        ReadNamespacedIngress "flask" "test-namespace"]
     else []).
Proof.
  split.
  - destruct (collected (fst (run_module (GitOps09.test_gitops opt) w)))
      eqn:Hc.
    + destruct (gitops09_session opt w Hc)
        as (v & uncond & cond & -> & _ & Hu & _ & Hcond).
      cbn [session_calls map concat]. unfold class_calls.
      cbn [reports teardown]. rewrite !app_nil_r.
      cbn [app map]. f_equal. rewrite map_app.
      rewrite (verifies_all_calls _ _ Hu).
      destruct (GitOps09.skip_condition opt).
      * by rewrite (skipped_all_calls _ Hcond).
      * by rewrite (verifies_all_calls _ _ Hcond).
    + apply run_module_uncollected in Hc as (f & ic & w1 & Hi & ->).
      apply import_fault_calls in Hi as ->. done.
  - destruct (collected (fst (run_module GitOps06.test_gitops w))) eqn:Hc.
    + pose proof Hc as Hc'.
      apply run_module_collected in Hc' as (ic & w1 & Hi & E).
      apply import_calls in Hi as [v ->].
      destruct (gitops06_session w Hc) as (rs & Hr & Hu).
      rewrite E in Hr |- *. cbn [results] in Hr. rewrite Hr.
      cbn [session_calls map concat]. unfold class_calls.
      cbn [reports teardown]. rewrite !app_nil_r.
      cbn [app map]. f_equal. by rewrite (verifies_all_calls _ _ Hu).
    + apply run_module_uncollected in Hc as (f & ic & w1 & Hi & ->).
      apply import_fault_calls in Hi as ->. done.
Qed.

Lemma eq_str_spec (s : string) (v : option string) :
  eq_str s v = true <-> v = Some s.
Proof.
  destruct v as [s'|]; cbn; [| done]. rewrite String.eqb_eq.
  split; [by intros -> | by intros [= ->]].
Qed.

Lemma identity_ok_spec k md :
  identity_ok k md = true <->
  md_name md = Some (r_name k) /\
  (forall ns, r_namespace k = Some ns -> md_namespace md = Some ns).
Proof.
  unfold identity_ok. rewrite andb_true_iff, eq_str_spec.
  destruct (r_namespace k) as [ns|].
  - rewrite eq_str_spec. split.
    + intros [Hn Hns]. split; [done |]. by intros ? [= <-].
    + intros [Hn Hns]. split; [done |]. by apply Hns.
  - split; [| by intros [? _]]. intros [Hn _]. by split.
Qed.

Lemma verdict_passed_iff k res :
  verdict k res = Passed <->
  exists md,
    res = Ok (PyObject (Some md)) /\
    md_name md = Some (r_name k) /\
    (forall ns, r_namespace k = Some ns -> md_namespace md = Some ns).
Proof.
  unfold verdict. split.
  - destruct res as [[| |[md|]|]|f]; try done.
    destruct (identity_ok k md) eqn:Hok; [| done]. intros _.
    exists md. split; [done |]. by apply identity_ok_spec.
  - intros (md & -> & Hmd). apply identity_ok_spec in Hmd. by rewrite Hmd.
Qed.

Import Criteria.

Lemma verifies_read_passes k r : verifies k r -> read_passes k r.
Proof.
  intros (res & Hc & Ho). unfold read_passes.
  rewrite Ho, verdict_passed_iff, Hc. split.
  - intros (md & -> & Hmd). by exists md.
  - intros (md & [= ->] & Hmd). by exists md.
Qed.

Lemma provisions_unit_passes u r : provisions u r -> unit_passes u r.
Proof.
  unfold unit_passes.
  intros [f Hc Ho | m f Hc Ho | m o res Hc Ho]; rewrite Hc, Ho.
  - split; [done |]. by intros (? & ? & ? & [=] & _).
  - split; [done |]. by intros (? & ? & ? & [=] & _).
  - rewrite verdict_passed_iff. split.
    + intros (md & -> & Hmd). by exists m, o, md.
    + intros (m' & o' & md & E & Hmd).
      assert (res = Ok (PyObject (Some md))) as -> by congruence.
      by exists md.
Qed.

(** In [06/tests/test_gitops.py] the four tests run in the order
    namespace, deployment, service, ingress, and each passes exactly
    when its read returned an object named as expected ([test-namespace],
    resp. [flask]) and, for the three namespaced kinds, lying in
    [test-namespace]; the namespace test does not look at the namespace
    field. *)
Theorem verification_tests_pass_iff_identity (w : W) :
  collected (fst (run_module GitOps06.test_gitops w)) = true ->
  exists reports,
    results (fst (run_module GitOps06.test_gitops w)) =
      [{| reports := reports; teardown := None |}] /\
    Forall2 read_passes
      [read_namespace "test-namespace";
       read_deployment "flask" "test-namespace";
       read_service "flask" "test-namespace";
       read_ingress "flask" "test-namespace"] reports.
Proof.
  intros Hc. destruct (gitops06_session w Hc) as (rs & Hr & Hu).
  exists rs. split; [done |].
  eapply Forall2_impl; [exact Hu |]. apply verifies_read_passes.
Qed.

(** The provisioning modules [03] and [gitops-flask-kubernetes] follow
    the same protocol as [04], for the units they have: namespace then
    deployment, resp. namespace alone. *)
Theorem shorter_variants_follow_protocol (m : test_module W)
    (us : list unit_spec) (w : W) :
  (m, us) ∈ [(Smoke03.test_smoke, [namespace_unit; deployment_unit]);
             (SmokeGfk.test_smoke, [namespace_unit])] ->
  collected (fst (run_module m w)) = true ->
  exists reports td,
    results (fst (run_module m w)) =
      [{| reports := reports; teardown := td |}] /\
    Forall2 provisions us reports /\
    Forall2 completes us reports.
Proof.
  intros Hm Hc. rewrite !elem_of_cons in Hm.
  destruct Hm as [[= -> ->] | [[= -> ->] | Hm]];
    [| | by apply elem_of_nil in Hm].
  - destruct (smoke03_session w Hc) as (v & rs & td & res & -> & _ & Hp & _).
    exists rs, (Some td). repeat split; trivial.
    eapply Forall2_impl; [exact Hp |]. apply provisions_completes.
  - destruct (gfk_session w Hc) as (v & rs & -> & _ & Hp).
    exists rs, None. repeat split; trivial.
    eapply Forall2_impl; [exact Hp |]. apply provisions_completes.
Qed.

(** A provisioning test passes exactly when all three of its calls
    returned and the object read back has the expected name and, for a
    namespaced kind, the expected namespace; what the create call
    returned is not looked at. *)
Theorem provisioning_tests_pass_iff (m : test_module W)
    (us : list unit_spec) (w : W) :
  (m, us) ∈ [(Smoke03.test_smoke, [namespace_unit; deployment_unit]);
             (Smoke04.test_smoke, provisioning_order);
             (SmokeGfk.test_smoke, [namespace_unit])] ->
  collected (fst (run_module m w)) = true ->
  exists reports td,
    results (fst (run_module m w)) =
      [{| reports := reports; teardown := td |}] /\
    Forall2 unit_passes us reports.
Proof.
  intros Hm Hc. rewrite !elem_of_cons in Hm.
  destruct Hm as [[= -> ->] | [[= -> ->] | [[= -> ->] | Hm]]];
    [| | | by apply elem_of_nil in Hm].
  - destruct (smoke03_session w Hc) as (v & rs & td & res & -> & _ & Hp & _).
    exists rs, (Some td). split; [done |].
    eapply Forall2_impl; [exact Hp |]. apply provisions_unit_passes.
  - destruct (smoke04_session w Hc) as (v & rs & td & res & -> & _ & Hp & _).
    exists rs, (Some td). split; [done |].
    eapply Forall2_impl; [exact Hp |]. apply provisions_unit_passes.
  - destruct (gfk_session w Hc) as (v & rs & -> & _ & Hp).
    exists rs, None. split; [done |].
    eapply Forall2_impl; [exact Hp |]. apply provisions_unit_passes.
Qed.

(** [test_index] never looks at the status code: given that the GET
    returned a response at all, it passes exactly when [hello] occurs
    somewhere in the body, also in the body of an error page. *)
Theorem index_check_looks_at_body_only (endpoint : option string) (w w' : W)
    (sc : Z) (content : string) :
  perform (RequestsGet ("http://" +:+ format_value endpoint +:+ "/")) w
  = (Ok (PyResponse sc content), w') ->
  (outcome_of (fst (run_test "test_index" (EndToEnd03.test_index endpoint) w))
   = Passed <-> exists pre post, content = pre +:+ "hello" +:+ post) /\
  (outcome_of (fst (run_test "test_index" (EndToEnd09.test_index endpoint) w))
   = Passed <-> exists pre post, content = pre +:+ "hello" +:+ post).
Proof.
  intros Hp. rewrite <- contains_spec.
  unfold EndToEnd03.test_index, EndToEnd09.test_index, run_test, bind,
    do_call. cbn [world trace]. rewrite Hp.
  cbn -[Text.contains].
  destruct (Text.contains "hello" content); cbn; split; split; done.
Qed.

Lemma matches_plus_iff cls s :
  Re.matches (Re.Plus cls) s <-> s <> "" /\ Re.all_chars cls s = true.
Proof.
  split; [| intros [? ?]; by apply matches_plus_all].
  induction s as [|c s IH]; intros Hm;
    apply matches_plus_inv in Hm as (c' & s' & E & Hc & Hs'); [done |].
  injection E as <- <-. split; [done |]. simpl. rewrite Hc.
  destruct Hs' as [-> | Hm]; [done |]. by apply IH.
Qed.

Lemma matches_cluster_pattern s :
  Re.matches Re.cluster_pattern s <->
  exists n c,
    s = "This is " +:+ n +:+ " in cluster " +:+ c /\
    n <> "" /\ Re.all_chars Re.is_word n = true /\
    c <> "" /\ Re.all_chars Re.is_word c = true.
Proof.
  unfold Re.cluster_pattern. split.
  - intros Hm. inversion Hm as [| | | ? ? s1 s2 H1 H2 |]; subst.
    inversion H1; subst.
    inversion H2 as [| | | ? ? s3 s4 H3 H4 |]; subst.
    inversion H3 as [| | | |? ? H3']; subst.
    inversion H4 as [| | | ? ? s5 s6 H5 H6 |]; subst.
    inversion H5; subst. inversion H6 as [| | | |? ? H6']; subst.
    apply matches_plus_iff in H3' as [? ?].
    apply matches_plus_iff in H6' as [? ?].
    by exists s3, s6.
  - intros (n & c & -> & Hn & Hna & Hc & Hca).
    apply Re.MCat; [apply Re.MLit |].
    apply Re.MCat; [apply Re.MGroup; by apply matches_plus_all |].
    apply Re.MCat; [apply Re.MLit |].
    apply Re.MGroup. by apply matches_plus_all.
Qed.

(** [test_cluster] looks at the beginning of the body only and never at
    the status code: given that the GET returned a response with an
    ASCII body, it passes exactly when the body begins with
    [This is n in cluster c] for non-empty runs of word characters [n]
    and [c]; anything may follow. *)
Theorem cluster_check_looks_at_prefix_only (endpoint : option string)
    (w w' : W) (sc : Z) (content : string) :
  perform (RequestsGet ("http://" +:+ format_value endpoint +:+ "/cluster")) w
  = (Ok (PyResponse sc content), w') ->
  Re.all_chars is_ascii content = true ->
  (outcome_of
     (fst (run_test "test_cluster" (EndToEnd09.test_cluster endpoint) w))
   = Passed <->
   exists n c rest,
     content = "This is " +:+ n +:+ " in cluster " +:+ c +:+ rest /\
     n <> "" /\ Re.all_chars Re.is_word n = true /\
     c <> "" /\ Re.all_chars Re.is_word c = true).
Proof.
  intros Hp Hascii.
  assert (outcome_of
            (fst (run_test "test_cluster" (EndToEnd09.test_cluster endpoint)
                    w)) = Passed
          <-> Re.re_match Re.cluster_pattern content = true) as ->.
  { unfold EndToEnd09.test_cluster, run_test, bind, do_call, decode.
    cbn [world trace]. rewrite Hp.
    cbn -[Re.re_match Re.all_chars]. rewrite Hascii.
    cbn -[Re.re_match].
    destruct (Re.re_match Re.cluster_pattern content); cbn; split; done. }
  rewrite re_match_spec. split.
  - intros (s1 & s2 & -> & Hm).
    apply matches_cluster_pattern in Hm as (n & c & -> & Hn).
    exists n, c, s2. split; [| done]. by rewrite !append_assoc_s.
  - intros (n & c & rest & -> & Hn).
    exists ("This is " +:+ n +:+ " in cluster " +:+ c), rest.
    split; [by rewrite !append_assoc_s |].
    apply matches_cluster_pattern. by exists n, c.
Qed.

Lemma all_chars_app cls (a b : string) :
  Re.all_chars cls (a +:+ b) = Re.all_chars cls a && Re.all_chars cls b.
Proof.
  induction a as [|x a IH]; [done |]. simpl. by rewrite IH, andb_assoc.
Qed.

Lemma is_word_ascii c : Re.is_word c = true -> is_ascii c = true.
Proof.
  unfold Re.is_word, is_ascii. intros Hw.
  apply N.ltb_lt.
  repeat (apply orb_true_iff in Hw as [Hw | Hw]);
    try (apply andb_true_iff in Hw as [_ Hw]; apply N.leb_le in Hw; lia).
  apply N.eqb_eq in Hw. lia.
Qed.

Lemma all_word_all_ascii s :
  Re.all_chars Re.is_word s = true -> Re.all_chars is_ascii s = true.
Proof.
  induction s as [|c s IH]; [done |]. simpl.
  rewrite !andb_true_iff. intros [Hc Hs].
  split; [by apply is_word_ascii | by apply IH].
Qed.

(** Against an endpoint that serves the responder's answer to [/],
    [test_index] passes, whatever the responder's environment and
    whatever status the answer carries. *)
Theorem index_check_passes_against_responder (E : string)
    (env : gmap string string) (evs : list App.event) (w w1 : W) (sc : Z) :
  perform (RequestsGet ("http://" +:+ E +:+ "/")) w
  = (Ok (PyResponse sc (App.body (App.get_after env evs "/"))), w1) ->
  outcome_of (fst (run_test "test_index" (EndToEnd03.test_index (Some E)) w))
  = Passed /\
  outcome_of (fst (run_test "test_index" (EndToEnd09.test_index (Some E)) w))
  = Passed.
Proof.
  intros Hi. rewrite get_after_boot in Hi. cbn [App.get String.eqb] in Hi.
  unfold EndToEnd03.test_index, EndToEnd09.test_index, run_test, bind,
    do_call, format_value.
  cbn [world trace]. rewrite Hi. split; reflexivity.
Qed.

(** Against an endpoint that serves the responder's answer to
    [/cluster], [test_cluster] passes when the service name in effect is
    a non-empty run of word characters and the cluster name in effect
    is ASCII text that begins with a word character; in particular when
    [NAME] and [CLUSTER] are unset. *)
Theorem cluster_check_passes_against_responder (E : string)
    (env : gmap string string) (evs : list App.event) (w w1 : W) (sc : Z) :
  perform (RequestsGet ("http://" +:+ E +:+ "/cluster")) w
  = (Ok (PyResponse sc (App.body (App.get_after env evs "/cluster"))), w1) ->
  default "service1" (env !! "NAME") <> "" ->
  Re.all_chars Re.is_word (default "service1" (env !! "NAME")) = true ->
  Re.all_chars is_ascii (default "cluster1" (env !! "CLUSTER")) = true ->
  Re.starts_with Re.is_word (default "cluster1" (env !! "CLUSTER")) = true ->
  outcome_of
    (fst (run_test "test_cluster" (EndToEnd09.test_cluster (Some E)) w))
  = Passed.
Proof.
  intros Hc Hne Hword Hascii Hstart.
  rewrite cluster_body in Hc. cbn [App.body] in Hc.
  assert (Re.all_chars is_ascii
            ("This is " +:+ default "service1" (env !! "NAME") +:+
             " in cluster " +:+ default "cluster1" (env !! "CLUSTER"))
          = true) as Hbody.
  { rewrite !all_chars_app, (all_word_all_ascii _ Hword), Hascii. done. }
  pose proof (match_identity_word_name _
                (default "cluster1" (env !! "CLUSTER")) Hne Hword Hascii)
    as Hm.
  rewrite Hstart in Hm.
  unfold EndToEnd09.test_cluster, run_test, bind, do_call, decode,
    format_value.
  cbn [world trace]. rewrite Hc.
  cbn -[Re.re_match Re.all_chars String.append]. rewrite Hbody.
  cbn -[Re.re_match String.append]. by rewrite Hm.
Qed.

(** When [--endpoint] is not given, the fixture hands [None] to the
    checks, which then request [http://None/] and [http://None/cluster]:
    the missing option is not detected before the request is made. *)
Theorem missing_endpoint_is_requested_as_none (c4 : Conftest04.options)
    (c8 : Conftest08.options) (w : W) :
  Conftest04.endpoint_opt c4 = None ->
  Conftest08.endpoint_opt c8 = None ->
  map (fun t => map e_call (calls (fst (run_test "check" t w))))
    [EndToEnd03.test_index (Conftest04.endpoint c4);
     EndToEnd09.test_index (Conftest08.endpoint c8);
     EndToEnd09.test_cluster (Conftest08.endpoint c8)]
  = [[RequestsGet "http://None/"];
     [RequestsGet "http://None/"];
     [RequestsGet "http://None/cluster"]].
Proof.
  unfold Conftest04.endpoint, Conftest08.endpoint. intros -> ->.
  unfold EndToEnd03.test_index, EndToEnd09.test_index,
    EndToEnd09.test_cluster, run_test, bind, do_call, decode, format_value.
  cbn [map world trace String.append].
  destruct (perform (RequestsGet "http://None/") w)
    as [[[|doc|md|sc content]|f] w1];
    destruct (perform (RequestsGet "http://None/cluster") w)
      as [[[|doc'|md'|sc' content']|f'] w2];
    cbn -[Re.re_match Text.contains Re.all_chars];
    repeat (match goal with
            | |- context [Text.contains ?a ?b] => destruct (Text.contains a b)
            | |- context [Re.all_chars ?a ?b] => destruct (Re.all_chars a b)
            | |- context [Re.re_match ?a ?b] => destruct (Re.re_match a b)
            end; cbn -[Re.re_match Text.contains Re.all_chars]);
    reflexivity.
Qed.

Lemma provisions_load_guards u r : provisions u r -> load_guards u r.
Proof.
  unfold load_guards.
  intros [f Hc Ho | m f Hc Ho | m o res Hc Ho]; rewrite Hc, Ho.
  - eexists _, _. split; [reflexivity |]. by intros f' [= ->].
  - eexists _, _. split; [reflexivity |]. done.
  - eexists _, _. split; [reflexivity |]. done.
Qed.

(** In every provisioning module, each unit begins by loading its own
    fixture file, and a unit whose load faults makes no call to the
    cluster: the load is its only call and the fault of the load is its
    outcome. *)
Theorem load_fault_makes_no_cluster_call (m : test_module W)
    (us : list unit_spec) (w : W) :
  (m, us) ∈ [(Smoke03.test_smoke, [namespace_unit; deployment_unit]);
             (Smoke04.test_smoke, provisioning_order);
             (SmokeGfk.test_smoke, [namespace_unit])] ->
  collected (fst (run_module m w)) = true ->
  exists reports td,
    results (fst (run_module m w)) =
      [{| reports := reports; teardown := td |}] /\
    Forall2 load_guards us reports.
Proof.
  intros Hm Hc. rewrite !elem_of_cons in Hm.
  destruct Hm as [[= -> ->] | [[= -> ->] | [[= -> ->] | Hm]]];
    [| | | by apply elem_of_nil in Hm].
  - destruct (smoke03_session w Hc) as (v & rs & td & res & -> & _ & Hp & _).
    exists rs, (Some td). split; [done |].
    eapply Forall2_impl; [exact Hp |]. apply provisions_load_guards.
  - destruct (smoke04_session w Hc) as (v & rs & td & res & -> & _ & Hp & _).
    exists rs, (Some td). split; [done |].
    eapply Forall2_impl; [exact Hp |]. apply provisions_load_guards.
  - destruct (gfk_session w Hc) as (v & rs & -> & _ & Hp).
    exists rs, None. split; [done |].
    eapply Forall2_impl; [exact Hp |]. apply provisions_load_guards.
Qed.

End HarnessFacts.

(** ** The further properties on concrete worlds *)

Section FurtherRuns.
Import Py Pytest Protocol Criteria.

Lemma import_fault_is_collection_error_witness :
  fst (perform (LoadKubeConfig (Some "kind-cluster9")) Sim.deployed)
  = Raise ConfigException /\
  run_module
    (GitOps09.test_gitops
       {| Conftest08.endpoint_opt := None;
          Conftest08.context := Some "kind-cluster9" |})
    Sim.deployed
  = (CollectionError ConfigException
       [{| e_call := LoadKubeConfig (Some "kind-cluster9");
           e_result := Raise ConfigException |}],
     snd (perform (LoadKubeConfig (Some "kind-cluster9")) Sim.deployed)).
Proof.
  split; [reflexivity |].
  apply (import_fault_is_collection_error
           {| Conftest08.endpoint_opt := None;
              Conftest08.context := Some "kind-cluster9" |}
           _ (Some "kind-cluster9") Sim.deployed ConfigException);
    [| reflexivity].
  do 4 apply list_elem_of_further. apply list_elem_of_here.
Defined.

Lemma verification_tests_pass_iff_identity_witness :
  collected (fst (run_module GitOps06.test_gitops Sim.deployed)) = true /\
  exists reports,
    results (fst (run_module GitOps06.test_gitops Sim.deployed)) =
      [{| reports := reports; teardown := None |}] /\
    Forall2 read_passes
      [read_namespace "test-namespace";
       read_deployment "flask" "test-namespace";
       read_service "flask" "test-namespace";
       read_ingress "flask" "test-namespace"] reports.
Proof.
  split; [reflexivity |].
  apply (verification_tests_pass_iff_identity Sim.deployed). reflexivity.
Defined.

Lemma shorter_variants_follow_protocol_witness :
  collected (fst (run_module Smoke03.test_smoke Sim.fresh)) = true /\
  exists reports td,
    results (fst (run_module Smoke03.test_smoke Sim.fresh)) =
      [{| reports := reports; teardown := td |}] /\
    Forall2 provisions [namespace_unit; deployment_unit] reports /\
    Forall2 completes [namespace_unit; deployment_unit] reports.
Proof.
  split; [reflexivity |].
  apply (shorter_variants_follow_protocol Smoke03.test_smoke
           [namespace_unit; deployment_unit] Sim.fresh);
    [apply list_elem_of_here | reflexivity].
Defined.

Lemma provisioning_tests_pass_iff_witness :
  collected (fst (run_module Smoke04.test_smoke Sim.leftover)) = true /\
  exists reports td,
    results (fst (run_module Smoke04.test_smoke Sim.leftover)) =
      [{| reports := reports; teardown := td |}] /\
    Forall2 unit_passes provisioning_order reports.
Proof.
  split; [reflexivity |].
  apply (provisioning_tests_pass_iff Smoke04.test_smoke
           provisioning_order Sim.leftover);
    [apply list_elem_of_further, list_elem_of_here | reflexivity].
Defined.

Lemma load_fault_makes_no_cluster_call_witness :
  collected (fst (run_module SmokeGfk.test_smoke Sim.deployed)) = true /\
  exists reports td,
    results (fst (run_module SmokeGfk.test_smoke Sim.deployed)) =
      [{| reports := reports; teardown := td |}] /\
    Forall2 load_guards [namespace_unit] reports.
Proof.
  split; [reflexivity |].
  apply (load_fault_makes_no_cluster_call SmokeGfk.test_smoke
           [namespace_unit] Sim.deployed);
    [do 2 apply list_elem_of_further; apply list_elem_of_here | reflexivity].
Defined.

(** With no fixture files in the working directory, the unit stops at
    the load. *)
Example missing_fixture_file :
  map (fun r => (outcome_of r, map e_call (calls r)))
    (concat (map reports
               (results (fst (run_module SmokeGfk.test_smoke Sim.deployed)))))
  = [(Failed OSError, [LoadYaml "namespace.yaml"])].
Proof. reflexivity. Qed.

Lemma index_check_looks_at_body_only_witness :
  perform (RequestsGet ("http://" +:+ format_value (Some "localhost:8080")
                        +:+ "/")) Sim.deployed
  = (Ok (PyResponse 200 "hello"), Sim.deployed) /\
  (outcome_of
     (fst (run_test "test_index"
             (EndToEnd03.test_index (Some "localhost:8080")) Sim.deployed))
   = Passed <-> exists pre post, "hello" = pre +:+ "hello" +:+ post) /\
  (outcome_of
     (fst (run_test "test_index"
             (EndToEnd09.test_index (Some "localhost:8080")) Sim.deployed))
   = Passed <-> exists pre post, "hello" = pre +:+ "hello" +:+ post).
Proof.
  split; [reflexivity |].
  apply (index_check_looks_at_body_only (Some "localhost:8080")
           Sim.deployed Sim.deployed 200 "hello").
  reflexivity.
Defined.

Lemma cluster_check_looks_at_prefix_only_witness :
  perform (RequestsGet ("http://" +:+ format_value (Some "localhost:8080")
                        +:+ "/cluster")) Sim.deployed
  = (Ok (PyResponse 200 "This is service1 in cluster cluster1"),
     Sim.deployed) /\
  Re.all_chars is_ascii "This is service1 in cluster cluster1" = true /\
  (outcome_of
     (fst (run_test "test_cluster"
             (EndToEnd09.test_cluster (Some "localhost:8080")) Sim.deployed))
   = Passed <->
   exists n c rest,
     "This is service1 in cluster cluster1"
     = "This is " +:+ n +:+ " in cluster " +:+ c +:+ rest /\
     n <> "" /\ Re.all_chars Re.is_word n = true /\
     c <> "" /\ Re.all_chars Re.is_word c = true).
Proof.
  split; [reflexivity |]. split; [reflexivity |].
  apply (cluster_check_looks_at_prefix_only (Some "localhost:8080")
           Sim.deployed Sim.deployed 200
           "This is service1 in cluster cluster1"); reflexivity.
Defined.

Lemma index_check_passes_against_responder_witness :
  perform (RequestsGet ("http://" +:+ "localhost:8080" +:+ "/")) Sim.deployed
  = (Ok (PyResponse 200 (App.body (App.get_after ∅ [] "/"))), Sim.deployed)
  /\
  outcome_of
    (fst (run_test "test_index"
            (EndToEnd03.test_index (Some "localhost:8080")) Sim.deployed))
  = Passed /\
  outcome_of
    (fst (run_test "test_index"
            (EndToEnd09.test_index (Some "localhost:8080")) Sim.deployed))
  = Passed.
Proof.
  split; [reflexivity |].
  apply (index_check_passes_against_responder "localhost:8080" ∅ []
           Sim.deployed Sim.deployed 200).
  reflexivity.
Defined.

Lemma cluster_check_passes_against_responder_witness :
  perform (RequestsGet ("http://" +:+ "localhost:8080" +:+ "/cluster"))
    Sim.deployed
  = (Ok (PyResponse 200 (App.body (App.get_after ∅ [] "/cluster"))),
     Sim.deployed) /\
  outcome_of
    (fst (run_test "test_cluster"
            (EndToEnd09.test_cluster (Some "localhost:8080")) Sim.deployed))
  = Passed.
Proof.
  split; [reflexivity |].
  apply (cluster_check_passes_against_responder "localhost:8080" ∅ []
           Sim.deployed Sim.deployed 200); try reflexivity.
  discriminate.
Defined.

Lemma missing_endpoint_is_requested_as_none_witness :
  map (fun t => map e_call (calls (fst (run_test "check" t Sim.offline))))
    [EndToEnd03.test_index
       (Conftest04.endpoint {| Conftest04.endpoint_opt := None |});
     EndToEnd09.test_index
       (Conftest08.endpoint
          {| Conftest08.endpoint_opt := None;
             Conftest08.context := Some "kind-cluster1" |});
     EndToEnd09.test_cluster
       (Conftest08.endpoint
          {| Conftest08.endpoint_opt := None;
             Conftest08.context := Some "kind-cluster1" |})]
  = [[RequestsGet "http://None/"];
     [RequestsGet "http://None/"];
     [RequestsGet "http://None/cluster"]].
Proof.
  apply (missing_endpoint_is_requested_as_none
           {| Conftest04.endpoint_opt := None |}
           {| Conftest08.endpoint_opt := None;
              Conftest08.context := Some "kind-cluster1" |}
           Sim.offline); reflexivity.
Defined.

End FurtherRuns.
